(** * Roxom market maker: order state, pricing and quoting coordination

    A shallow embedding of the Python sources

      - [settings.py]
      - [market_data/state.py]   (class [MarketDataState])
      - [strategy/pricing.py]    (class [FairPriceCalculator])
      - [roxom/state.py]         (class [AccountDataState])
      - [strategy/market_maker.py] (class [MarketMaker])

    Python [float] is IEEE 754 binary64, which is exactly Rocq's primitive
    [float]; the arithmetic of [pricing.py] is therefore embedded on
    [PrimFloat] with Python's own exceptional cases (division by zero,
    [round] of a non-finite value) written out.  Dictionaries are [gmap]s,
    exceptions are an error monad, and the coroutines of [market_maker.py]
    are run between their [await] points with the actions of the other
    tasks interleaved there. *)

From Stdlib Require Import ZArith QArith Floats Lia List String Ascii.
From stdpp Require Import base option gmap strings list fin_maps.

(* Decimal float literals are read to the nearest binary64 value, as
   Python reads them. *)
Set Warnings "-inexact-float".

Local Open Scope string_scope.
Local Open Scope Z_scope.

(* ===================================================================== *)
(** * Python values, truthiness and exceptions *)
(* ===================================================================== *)

Module Py.

(** The JSON scalars that travel through the order dictionaries.  The
    fields are only copied, compared with string constants and tested for
    truthiness, so [None], [str] and [int] cover what the code reads. *)
Inductive pyval : Type :=
| PNone
| PStr (s : string)
| PInt (z : Z).

#[global] Instance pyval_eq_dec : EqDecision pyval.
Proof. solve_decision. Defined.

Definition pyval_enc (v : pyval) : unit + (string + Z) :=
  match v with
  | PNone => inl tt
  | PStr s => inr (inl s)
  | PInt z => inr (inr z)
  end.

Definition pyval_dec (x : unit + (string + Z)) : pyval :=
  match x with
  | inl _ => PNone
  | inr (inl s) => PStr s
  | inr (inr z) => PInt z
  end.

#[global] Instance pyval_countable : Countable pyval.
Proof.
  refine (inj_countable' pyval_enc pyval_dec _).
  intros []; reflexivity.
Defined.

(** [bool(v)]: [None], the empty string and [0] are falsy. *)
Definition truthy (v : pyval) : bool :=
  match v with
  | PNone => false
  | PStr s => negb (String.eqb s "")
  | PInt z => negb (Z.eqb z 0)
  end.

(** [d.get(k)] on a [Dict[str, Any]]: a missing key reads as [None]. *)
Definition get (d : gmap string pyval) (k : string) : pyval :=
  default PNone (d !! k).

(** A raised exception: its class name and its message. *)
Record exn : Type := Exn { exn_class : string; exn_msg : string }.

(** Outcome of a computation that may raise. *)
Inductive result (A : Type) : Type :=
| Ok (a : A)
| Raise (e : exn).
Arguments Ok {A} a.
Arguments Raise {A} e.

(** Sequencing: the first [Raise] aborts the rest, as an uncaught
    exception does.  Declared as stdpp's monad, for its [x ← m; k]. *)
#[global] Instance result_ret : MRet result := fun _ a => Ok a.

#[global] Instance result_bind : MBind result := fun _ _ k r =>
  match r with
  | Ok a => k a
  | Raise e => Raise e
  end.

(** [str(e)], as interpolated by the f-strings of the log calls. *)
Definition str_of_exn (e : exn) : string := exn_msg e.

(** ** Floats: Python's [/], [round] and [int * float] *)

Definition ZeroDivisionError : exn := Exn "ZeroDivisionError" "float division by zero".
Definition TypeError_None : exn := Exn "TypeError" "unsupported operand type(s): 'NoneType'".
Definition TypeError_subscript : exn := Exn "TypeError" "'NoneType' object is not subscriptable".
Definition ValueError_nan : exn := Exn "ValueError" "cannot convert float NaN to integer".
Definition OverflowError_inf : exn := Exn "OverflowError" "cannot convert float infinity to integer".
Definition OverflowError_int : exn := Exn "OverflowError" "int too large to convert to float".

(** [x / y] on floats: a zero divisor (of either sign) raises. *)
Definition truediv (x y : float) : result float :=
  if PrimFloat.eqb y 0%float then Raise ZeroDivisionError else Ok (x / y)%float.

(** Round-half-to-even of [m * 2^e] for a positive mantissa [m]. *)
Definition round_half_even (m : positive) (e : Z) : Z :=
  if 0 <=? e then Z.pos m * 2 ^ e
  else
    let d := 2 ^ (- e) in
    let q := Z.pos m / d in
    let r := Z.pos m mod d in
    match 2 * r ?= d with
    | Lt => q
    | Gt => q + 1
    | Eq => if Z.even q then q else q + 1
    end.

(** [round(x)] with one argument: the nearest [int], ties to even;
    NaN and the infinities raise. *)
Definition round (x : float) : result Z :=
  match Prim2SF x with
  | S754_zero _ => Ok 0
  | S754_infinity _ => Raise OverflowError_inf
  | S754_nan => Raise ValueError_nan
  | S754_finite s m e =>
      Ok (if s then - round_half_even m e else round_half_even m e)
  end.

(** [float(n)] for an [int]: correctly rounded (ties to even), and an
    [OverflowError] beyond the binary64 range. *)
Definition float_of_int (n : Z) : result float :=
  match binary_normalize prec emax n 0 false with
  | S754_infinity _ => Raise OverflowError_int
  | sf => Ok (SF2Prim sf)
  end.

(** [n * y] with [n : int] and [y : float]: the [int] is converted first. *)
Definition int_mul_float (n : Z) (y : float) : result float :=
  x ← float_of_int n; Ok (x * y)%float.

(** [bool(x)] for a float: only the zeros are falsy (NaN is truthy). *)
Definition float_truthy (x : float) : bool := negb (PrimFloat.eqb x 0%float).

(** [s.upper()] on ASCII text. *)
Definition upper_ascii (c : ascii) : ascii :=
  let n := nat_of_ascii c in
  if (Nat.leb 97 n && Nat.leb n 122)%bool then ascii_of_nat (n - 32) else c.

Fixpoint upper (s : string) : string :=
  match s with
  | EmptyString => EmptyString
  | String c rest => String (upper_ascii c) (upper rest)
  end.

(** The exact rational value of a finite float. *)
Definition exact (x : float) : option Q :=
  match Prim2SF x with
  | S754_zero _ => Some (0 # 1)%Q
  | S754_finite s m e =>
      let mag := if 0 <=? e then inject_Z (Z.pos m * 2 ^ e)
                 else (Z.pos m # Z.to_pos (2 ^ (- e)))%Q in
      Some (if s then Qopp mag else mag)
  | _ => None
  end.

End Py.

(* ===================================================================== *)
(** * settings.py *)
(* ===================================================================== *)

Module settings.
Definition SYMBOL : string := "GOLD-BTC".
Definition INST_TYPE : string := "perpetual".
Definition SPREAD_BPS : Z := 20.
Definition ORDER_SIZE : string := "1.00".
Definition ORDER_TYPE : string := "limit".
Definition TIME_IN_FORCE : string := "gtc".
Definition PRICE_SYMBOLS : list string := ["paxgusdt"; "btcusdt"].
Definition TICK_SIZE : float := 0x1.0c6f7a0b5ed8dp-20%float.  (* 0.00000100 *)
End settings.

(* ===================================================================== *)
(** * market_data/state.py *)
(* ===================================================================== *)

Module market_data.

(** [{'bid': ..., 'ask': ...}]; a side is [None] until the first tick. *)
Record price_data : Type := PriceData { bid : option float; ask : option float }.

Record MarketDataState : Type := { prices : gmap string price_data }.

(** [__init__]: one empty entry per configured symbol, upper-cased. *)
Definition init : MarketDataState :=
  {| prices := foldl (fun m symbol => <[Py.upper symbol := PriceData None None]> m)
                     ∅ settings.PRICE_SYMBOLS |}.

Definition update_price (symbol : string) (b a : float) (st : MarketDataState)
  : MarketDataState :=
  match prices st !! symbol with
  | Some _ => {| prices := <[symbol := PriceData (Some b) (Some a)]> (prices st) |}
  | None => st
  end.

Definition get_price (st : MarketDataState) (symbol : string) : option price_data :=
  prices st !! symbol.

Fixpoint has_data (st : MarketDataState) (symbols : list string) : bool :=
  match symbols with
  | [] => true
  | symbol :: rest =>
      match prices st !! symbol with
      | None => false
      | Some pd =>
          match bid pd, ask pd with
          | Some _, Some _ => has_data st rest
          | _, _ => false
          end
      end
  end.

End market_data.

(* ===================================================================== *)
(** * strategy/pricing.py *)
(* ===================================================================== *)

Module pricing.
Import market_data.

(** [d['bid']] on the result of [get_price], then used as a number. *)
Definition side_of (pd : option price_data) (f : price_data -> option float)
  : Py.result float :=
  match pd with
  | None => Py.Raise Py.TypeError_subscript
  | Some d => match f d with
              | Some x => Py.Ok x
              | None => Py.Raise Py.TypeError_None
              end
  end.

Definition get_fair_price (st : MarketDataState) : Py.result (option float) :=
  let symbols := map Py.upper settings.PRICE_SYMBOLS in
  if negb (has_data st symbols) then Py.Ok None
  else
    let paxg_data := get_price st "PAXGUSDT" in
    let btc_data := get_price st "BTCUSDT" in
    pb ← side_of paxg_data bid;
    pa ← side_of paxg_data ask;
    let paxg_mid := ((pb + pa) / 2)%float in
    bb ← side_of btc_data bid;
    ba ← side_of btc_data ask;
    let btc_mid := ((bb + ba) / 2)%float in
    fair_price ← Py.truediv paxg_mid btc_mid;
    Py.Ok (Some fair_price).

(** [round(p / TICK_SIZE) * TICK_SIZE] *)
Definition round_to_tick (p : float) : Py.result float :=
  q ← Py.truediv p settings.TICK_SIZE;
  n ← Py.round q;
  Py.int_mul_float n settings.TICK_SIZE.

(** [settings.SPREAD_BPS / 10000], that is [20 / 10000]: true division of
    two ints that convert to floats exactly. *)
Definition spread_fraction : float := (20 / 10000)%float.

Definition calculate_bid_ask_prices (fair_price : float) : Py.result (float * float) :=
  let spread := (fair_price * spread_fraction)%float in
  let bid_price := (fair_price - spread / 2)%float in
  let ask_price := (fair_price + spread / 2)%float in
  bid_price ← round_to_tick bid_price;
  ask_price ← round_to_tick ask_price;
  Py.Ok (bid_price, ask_price).

(** [is_ready]: [self.get_fair_price() is not None]. *)
Definition is_ready (st : MarketDataState) : Py.result bool :=
  fair_price ← get_fair_price st;
  Py.Ok (bool_decide (fair_price <> None)).

End pricing.

(* ===================================================================== *)
(** * roxom/state.py *)
(* ===================================================================== *)

Module state.
Import Py.

(** The dictionary stored per order: always the same nine keys. *)
Record order : Type := Order {
  orderId : pyval;
  accountId : pyval;
  symbol : pyval;
  status : pyval;
  remainingQty : pyval;
  executedQty : pyval;
  avgPx : pyval;
  timestamp : pyval;
  lastUpdated : string
}.

(** One entry of [order_history]. *)
Record history_entry : Type := HistoryEntry {
  h_orderId : pyval;
  h_previousStatus : pyval;
  h_newStatus : pyval;
  h_executedQty : pyval;
  h_remainingQty : pyval;
  h_avgPx : pyval;
  h_timestamp : pyval;
  h_processedAt : string
}.

#[global] Instance order_eq_dec : EqDecision order.
Proof. solve_decision. Defined.

#[global] Instance history_entry_eq_dec : EqDecision history_entry.
Proof. solve_decision. Defined.

Record AccountDataState : Type := {
  orders : gmap pyval order;
  order_history : list history_entry
}.

(** [__init__] *)
Definition init : AccountDataState := {| orders := ∅; order_history := [] |}.

(** The bound of the history list (the literal [1000] of the source). *)
Definition HISTORY_LIMIT : nat := 1000.

(** [l[-n:]] for [n > 0]. *)
Definition last_n {A : Type} (n : nat) (l : list A) : list A :=
  drop (length l - n) l.

(** [previous_state.get('status', 'unknown')] with
    [previous_state = self.orders.get(order_id, {})]. *)
Definition previous_status_of (st : AccountDataState) (order_id : pyval) : pyval :=
  match orders st !! order_id with
  | Some o => status o
  | None => PStr "unknown"
  end.

(** The order dictionary built from the event. *)
Definition order_of_event (order_id : pyval) (order_data : gmap string pyval)
    (now : string) : order :=
  {| orderId := order_id;
     accountId := get order_data "accountId";
     symbol := get order_data "symbol";
     status := get order_data "status";
     remainingQty := get order_data "remainingQty";
     executedQty := get order_data "executedQty";
     avgPx := get order_data "avgPx";
     timestamp := get order_data "timestamp";
     lastUpdated := now |}.

Definition history_entry_of (order_id previous_status : pyval)
    (order_data : gmap string pyval) (now : string) : history_entry :=
  {| h_orderId := order_id;
     h_previousStatus := previous_status;
     h_newStatus := get order_data "status";
     h_executedQty := get order_data "executedQty";
     h_remainingQty := get order_data "remainingQty";
     h_avgPx := get order_data "avgPx";
     h_timestamp := get order_data "timestamp";
     h_processedAt := now |}.

(** [update_order].  [now1] and [now2] are the two readings of
    [datetime.utcnow().isoformat()].  The status-specific logging that
    ends the method reads only [order_data]; it writes neither
    [self.orders] nor [self.order_history], and it runs after both have
    been written, so the state transition is the one below whether or
    not a log call raises. *)
Definition update_order (order_data : gmap string pyval) (now1 now2 : string)
    (st : AccountDataState) : AccountDataState :=
  let order_id := get order_data "orderId" in
  if negb (truthy order_id) then st
  else
    let previous_status := previous_status_of st order_id in
    let orders' := <[order_id := order_of_event order_id order_data now1]> (orders st) in
    let entry := history_entry_of order_id previous_status order_data now2 in
    let order_history' := (order_history st ++ [entry])%list in
    {| orders := orders';
       order_history :=
         if (HISTORY_LIMIT <? length order_history')%nat
         then last_n HISTORY_LIMIT order_history'
         else order_history' |}.

Definition get_order (st : AccountDataState) (order_id : pyval) : option order :=
  orders st !! order_id.

Definition get_order_status (st : AccountDataState) (order_id : pyval) : option pyval :=
  status <$> orders st !! order_id.

(** [terminal_states = {'filled', 'cancelled', 'rejected', 'inactive'}] *)
Definition terminal_states : list pyval :=
  [PStr "filled"; PStr "cancelled"; PStr "rejected"; PStr "inactive"].

Definition is_terminal (s : pyval) : bool := bool_decide (s ∈ terminal_states).

Definition get_active_orders (st : AccountDataState) : gmap pyval order :=
  filter (fun kv => is_terminal (status kv.2) = false) (orders st).

Definition get_filled_orders (st : AccountDataState) : gmap pyval order :=
  filter (fun kv => status kv.2 = PStr "filled") (orders st).

Definition is_order_active (st : AccountDataState) (order_id : pyval) : bool :=
  match orders st !! order_id with
  | None => false
  | Some o => negb (is_terminal (status o))
  end.

(** [get_order_summary]: the number of orders per status.  The stored
    dictionaries always have the key ['status'], so the default
    ['unknown'] of the [.get] is never used. *)
Definition get_order_summary (st : AccountDataState) : gmap pyval nat :=
  map_fold (fun _ order_data summary =>
              let status := status order_data in
              <[status := (default 0 (summary !! status) + 1)%nat]> summary)
           ∅ (orders st).

(** [order['status'] = s] on a stored dictionary. *)
Definition set_status (s : pyval) (o : order) : order :=
  {| orderId := orderId o; accountId := accountId o; symbol := symbol o;
     status := s;
     remainingQty := remainingQty o; executedQty := executedQty o;
     avgPx := avgPx o; timestamp := timestamp o; lastUpdated := lastUpdated o |}.

(** An update event as it reaches [update_order], with its clock readings. *)
Record update : Type := Update {
  u_data : gmap string pyval;
  u_now1 : string;
  u_now2 : string
}.

Definition apply_update (st : AccountDataState) (u : update) : AccountDataState :=
  update_order (u_data u) (u_now1 u) (u_now2 u) st.

(** A sequence of [update_order] calls. *)
Definition apply_updates (us : list update) (st : AccountDataState) : AccountDataState :=
  foldl apply_update st us.

(** The history entries the calls append, in order and without the
    trimming: a ghost trace against which the bounded list is stated. *)
Fixpoint appended (us : list update) (st : AccountDataState) : list history_entry :=
  match us with
  | [] => []
  | u :: rest =>
      let order_id := get (u_data u) "orderId" in
      ((if truthy order_id
        then [history_entry_of order_id (previous_status_of st order_id) (u_data u) (u_now2 u)]
        else [])
       ++ appended rest (apply_update st u))%list
  end.

End state.

(* ===================================================================== *)
(** * strategy/market_maker.py *)
(* ===================================================================== *)

Module market_maker.
Import Py state.

(** [self.current_orders = {'bid_id': ..., 'ask_id': ...}] *)
Record quote_slots : Type := { bid_id : pyval; ask_id : pyval }.

(** [self.current_position] *)
Record position_snapshot : Type := {
  p_symbol : string;
  p_position : float;
  p_total_fills : nat;
  p_last_updated : option string
}.

Record MarketMaker : Type := {
  market_state : market_data.MarketDataState;
  account_state : AccountDataState;
  current_orders : quote_slots;
  current_position : position_snapshot
}.

(** [__init__] *)
Definition init : MarketMaker :=
  {| market_state := market_data.init;
     account_state := state.init;
     current_orders := {| bid_id := PNone; ask_id := PNone |};
     current_position := {| p_symbol := settings.SYMBOL; p_position := 0%float;
                            p_total_fills := 0%nat; p_last_updated := None |} |}.

Definition with_account_state (a : AccountDataState) (mm : MarketMaker) : MarketMaker :=
  {| market_state := market_state mm; account_state := a;
     current_orders := current_orders mm; current_position := current_position mm |}.

Definition with_current_orders (c : quote_slots) (mm : MarketMaker) : MarketMaker :=
  {| market_state := market_state mm; account_state := account_state mm;
     current_orders := c; current_position := current_position mm |}.

(** ** The gateway ([RoxomClient]) as seen by the coordinator

    A call either returns the decoded JSON body or raises
    ([_make_request] turns every transport or HTTP failure into an
    [Exception]). *)

(** The calls the coordinator issues.  [place_order] carries the side and
    the price; its other arguments are constants of [settings], and the
    [:.8f] formatting of the price is not modelled. *)
Inductive gateway_call : Type :=
| cancel_order (order_id : pyval)
| place_order (side : string) (price : float)
| cancel_all_orders
| get_positions.

(** The body of a placement reply, as far as it is read:
    [result['data']['orderId']] (a [KeyError] when a key is missing) and
    [result['data'].get('accountId')]. *)
Record place_data : Type := { pd_orderId : option pyval; pd_accountId : pyval }.
Record place_body : Type := { data : option place_data }.

Definition KeyError (k : string) : exn := Exn "KeyError" k.

(** One leg of the positions reply: [position.get('side')] and the
    outcome of [float(position.get('size', 0))]. *)
Record position_leg : Type := { leg_side : pyval; leg_size : result float }.

(** A log record: level and message. *)
Definition log_record : Type := string * string.

(** ** [immediate_cleanup]

    The coroutine contains no [await]: it runs to its end without
    yielding to the other tasks.  [r] is the outcome of
    [self.roxom_client.cancel_all_orders()]. *)

Definition cleared : quote_slots := {| bid_id := PNone; ask_id := PNone |}.

(** The loop over [self.account_state.orders.items()]: each stored
    dictionary that [is_order_active] accepts gets status ['cancelled']. *)
Definition cancel_active_orders (st : AccountDataState) : AccountDataState :=
  {| orders := map_imap (fun order_id order_data =>
                 Some (if is_order_active st order_id
                       then set_status (PStr "cancelled") order_data
                       else order_data)) (orders st);
     order_history := order_history st |}.

Definition immediate_cleanup (r : result (gmap string pyval)) (mm : MarketMaker)
  : MarketMaker :=
  match r with
  | Ok response =>
      with_account_state (cancel_active_orders (account_state mm))
        (with_current_orders cleared mm)
  | Raise e =>
      (* Clear local tracking regardless *)
      with_current_orders cleared mm
  end.

(** ** [_update_position] and one turn of [position_polling_loop] *)

(** The [for position in positions] loop. *)
Fixpoint signed_total (positions : list position_leg) (total_position : float)
  : result float :=
  match positions with
  | [] => Ok total_position
  | p :: rest =>
      sz ← leg_size p;
      signed_total rest
        (if bool_decide (leg_side p = PStr "long") then (total_position + sz)%float
         else if bool_decide (leg_side p = PStr "short") then (total_position - sz)%float
         else total_position)
  end.

(** [r] is the outcome of [get_positions] followed by the two [.get]s
    that extract the list of legs.  The whole body sits in
    [try ... except Exception], so the call itself always returns; the
    third component is what the caller's own [try] observes. *)
Definition _update_position (r : result (list position_leg)) (now : string)
    (mm : MarketMaker) : MarketMaker * list log_record * result unit :=
  let filled_orders := size (get_filled_orders (account_state mm)) in
  match (positions ← r; signed_total positions 0%float) with
  | Ok total_position =>
      ({| market_state := market_state mm; account_state := account_state mm;
          current_orders := current_orders mm;
          current_position :=
            {| p_symbol := p_symbol (current_position mm);
               p_position := total_position;
               p_total_fills := filled_orders;
               p_last_updated := Some now |} |},
       [], Ok tt)
  | Raise e =>
      (mm, [("WARNING", "Failed to update position: " +:+ str_of_exn e)], Ok tt)
  end.

(** What the loop awaits before its next turn. *)
Inductive poll_wait : Type :=
| wait_for_shutdown (timeout : float)   (* [asyncio.wait_for(self.shutdown_event.wait(), timeout=1.0)] *)
| sleep (seconds : Z).                  (* [asyncio.sleep(10)] *)

(** The body of [while not self.shutdown_event.is_set()]. *)
Definition position_polling_turn (r : result (list position_leg)) (now : string)
    (mm : MarketMaker) : MarketMaker * list log_record * poll_wait :=
  let '(mm', logs, outcome) := _update_position r now mm in
  match outcome with
  | Ok _ => (mm', logs, wait_for_shutdown 1%float)
  | Raise e =>
      (mm', (logs ++ [("ERROR", "Error in position polling: " +:+ str_of_exn e)])%list,
       sleep 10)
  end.

(** ** The other tasks

    What the tasks sharing the event loop can do to the shared state
    while [quote_market] is suspended in an [await]. *)
Inductive task_action : Type :=
| feed_order_update (u : update)                       (* private feed: [update_order] *)
| feed_price (symbol : string) (b a : float)           (* public feed: [update_price] *)
| position_poll (r : result (list position_leg)) (now : string)
| emergency_cleanup (r : result (gmap string pyval)).  (* [emergency_monitor] *)

Definition run_task (mm : MarketMaker) (a : task_action) : MarketMaker :=
  match a with
  | feed_order_update u => with_account_state (apply_update (account_state mm) u) mm
  | feed_price symbol b a =>
      {| market_state := market_data.update_price symbol b a (market_state mm);
         account_state := account_state mm;
         current_orders := current_orders mm;
         current_position := current_position mm |}
  | position_poll r now => (_update_position r now mm).1.1
  | emergency_cleanup r => immediate_cleanup r mm
  end.

Definition run_tasks (acts : list task_action) (mm : MarketMaker) : MarketMaker :=
  foldl run_task mm acts.

(** ** [quote_market]

    The coroutine suspends twice: at the [gather] of the cancellations
    (only when there is something to cancel) and at the [gather] of the
    two placements.  The oracle gives, for one cycle, the replies of the
    gateway, what the other tasks do during each suspension, and the
    clock readings. *)
Record cycle_oracle : Type := {
  (* reply to [cancel_order(order_id)] issued for slot [order_type] *)
  cancel_reply : string -> pyval -> result (gmap string pyval);
  during_cancel : list task_action;
  bid_reply : result place_body;
  ask_reply : result place_body;
  during_place : list task_action;
  bid_timestamp : string;  bid_now1 : string;  bid_now2 : string;
  ask_timestamp : string;  ask_now1 : string;  ask_now2 : string
}.

(** What a cycle leaves behind: the state, the gateway calls it issued
    (in order), and the exception its [except Exception] clause caught
    and logged, if any. *)
Record cycle_result : Type := {
  final : MarketMaker;
  calls : list gateway_call;
  caught : option exn
}.

(** [self.current_orders.items()] *)
Definition items (c : quote_slots) : list (string * pyval) :=
  [("bid_id", bid_id c); ("ask_id", ask_id c)].

(** The loop that fills [orders_to_cancel]. *)
Definition orders_to_cancel (mm : MarketMaker) : list (string * pyval) :=
  filter (fun p => truthy p.2 && is_order_active (account_state mm) p.2 = true)
         (items (current_orders mm)).

(** [order = get_order(order_id); if order: order['status'] = 'cancelled'] *)
Definition mark_cancelled (order_id : pyval) (st : AccountDataState) : AccountDataState :=
  match get_order st order_id with
  | Some o => {| orders := <[order_id := set_status (PStr "cancelled") o]> (orders st);
                 order_history := order_history st |}
  | None => st
  end.

(** The loop over [zip(orders_to_cancel, cancellation_results)]. *)
Definition process_cancellations
    (results : list ((string * pyval) * result (gmap string pyval)))
    (st : AccountDataState) : AccountDataState :=
  foldl (fun st pr =>
           match pr.2 with
           | Raise _ => st                       (* logged, order left tracked *)
           | Ok _ => mark_cancelled pr.1.2 st
           end) st results.

(** The cancel phase: lines 60-95. *)
Definition cancel_phase (o : cycle_oracle) (mm : MarketMaker)
  : MarketMaker * list gateway_call :=
  let to_cancel := orders_to_cancel mm in
  match to_cancel with
  | [] => (mm, [])
  | _ :: _ =>
      let issued := map (fun p => cancel_order p.2) to_cancel in
      (* suspended in [await asyncio.gather(..., return_exceptions=True)] *)
      let mm1 := run_tasks (during_cancel o) mm in
      let cancellation_results := map (fun p => cancel_reply o p.1 p.2) to_cancel in
      (with_account_state
         (process_cancellations (zip to_cancel cancellation_results) (account_state mm1))
         mm1,
       issued)
  end.

(** The dictionaries passed to [update_order] after a placement. *)
Definition bid_event (bid_id : pyval) (d : place_data) (ts : string) : gmap string pyval :=
  list_to_map
    [("orderId", bid_id); ("accountId", pd_accountId d);
     ("symbol", PStr settings.SYMBOL); ("status", PStr "pendingsubmit");
     ("remainingQty", PStr settings.ORDER_SIZE); ("executedQty", PStr "0.00");
     ("timestamp", PStr ts)].

Definition ask_event (ask_id : pyval) (d : place_data) (ts : string) : gmap string pyval :=
  list_to_map
    [("orderId", ask_id); ("accountId", pd_accountId d);
     ("symbol", PStr settings.SYMBOL); ("status", PStr "pendingsubmit");
     ("remainingQty", PStr settings.ORDER_SIZE); ("executedQty", PStr "0.00");
     ("avgPx", PStr "0.00000000"); ("timestamp", PStr ts)].

(** [result['data']['orderId']] *)
Definition order_id_of (r : place_body) : result (pyval * place_data) :=
  match data r with
  | None => Raise (KeyError "data")
  | Some d => match pd_orderId d with
              | None => Raise (KeyError "orderId")
              | Some i => Ok (i, d)
              end
  end.

(** Lines 122-149: the code after the placements have both returned.
    State written before a [KeyError] stays written. *)
Definition record_placements (o : cycle_oracle) (bid_result ask_result : place_body)
    (mm : MarketMaker) : MarketMaker * option exn :=
  match order_id_of bid_result with
  | Raise e => (mm, Some e)
  | Ok (bid_id', bd) =>
      let mm1 := with_current_orders
                   {| bid_id := bid_id'; ask_id := ask_id (current_orders mm) |} mm in
      let mm2 := with_account_state
                   (update_order (bid_event bid_id' bd (bid_timestamp o))
                      (bid_now1 o) (bid_now2 o) (account_state mm1)) mm1 in
      match order_id_of ask_result with
      | Raise e => (mm2, Some e)
      | Ok (ask_id', ad) =>
          let mm3 := with_current_orders
                       {| bid_id := bid_id (current_orders mm2); ask_id := ask_id' |} mm2 in
          (with_account_state
             (update_order (ask_event ask_id' ad (ask_timestamp o))
                (ask_now1 o) (ask_now2 o) (account_state mm3)) mm3,
           None)
      end
  end.

(** The place phase: lines 97-149.  [asyncio.gather(bid_task, ask_task)]
    is called without [return_exceptions]: both calls are started, and
    an exception of either one is raised out of the [await] (when both
    fail, the model reports the bid's; the handler only logs it). *)
Definition place_phase (o : cycle_oracle) (bid_price ask_price : float)
    (mm : MarketMaker) : MarketMaker * list gateway_call * option exn :=
  let issued := [place_order "buy" bid_price; place_order "sell" ask_price] in
  let mm1 := run_tasks (during_place o) mm in
  match bid_reply o, ask_reply o with
  | Raise e, _ => (mm1, issued, Some e)
  | Ok _, Raise e => (mm1, issued, Some e)
  | Ok bid_result, Ok ask_result =>
      let '(mm2, e) := record_placements o bid_result ask_result mm1 in
      (mm2, issued, e)
  end.

Definition quote_market (o : cycle_oracle) (mm : MarketMaker) : cycle_result :=
  match pricing.get_fair_price (market_state mm) with
  | Raise e => {| final := mm; calls := []; caught := Some e |}
  | Ok None => {| final := mm; calls := []; caught := None |}
  | Ok (Some fair_price) =>
      if negb (float_truthy fair_price)
      then {| final := mm; calls := []; caught := None |}
      else
        match pricing.calculate_bid_ask_prices fair_price with
        | Raise e => {| final := mm; calls := []; caught := Some e |}
        | Ok (bid_price, ask_price) =>
            let '(mm1, cancels) := cancel_phase o mm in
            let '(mm2, places, e) := place_phase o bid_price ask_price mm1 in
            {| final := mm2; calls := (cancels ++ places)%list; caught := e |}
        end
  end.

End market_maker.

(* ===================================================================== *)
(** * strategy/orders.py *)
(* ===================================================================== *)

Module orders.
Import Py state.

(** [OrderManager]: the shared [AccountDataState] and the flag. *)
Record OrderManager : Type := {
  om_state : AccountDataState;
  is_initialized : bool
}.

(** The conversion from the REST format to the WebSocket format. *)
Definition order_data_of_rest (order : gmap string pyval) : gmap string pyval :=
  list_to_map
    [("orderId", get order "id"); ("accountId", get order "accountId");
     ("symbol", get order "symbol"); ("status", get order "status");
     ("remainingQty", get order "qty"); ("executedQty", PStr "0.00");
     ("avgPx", PStr "0.00000000"); ("timestamp", get order "createdAt")].

(** One order of the REST reply, with the two clock readings of the
    [update_order] call made for it. *)
Record rest_order : Type := RestOrder {
  ro_order : gmap string pyval;
  ro_now1 : string;
  ro_now2 : string
}.

Definition load (st : AccountDataState) (ro : rest_order) : AccountDataState :=
  update_order (order_data_of_rest (ro_order ro)) (ro_now1 ro) (ro_now2 ro) st.

(** [OrderManager.initialize].  [r] is the outcome of [get_orders] followed
    by the two [.get]s that extract the list.  Every event built by the
    loop has [executedQty = '0.00'], so the logging of [update_order] never
    converts a quantity and the loop cannot raise.  On failure the
    exception is logged and raised again. *)
Definition initialize (r : result (list rest_order)) (om : OrderManager)
  : OrderManager * result unit :=
  match r with
  | Ok rest_orders =>
      ({| om_state := foldl load (om_state om) rest_orders; is_initialized := true |},
       Ok tt)
  | Raise e => (om, Raise e)
  end.

(** [MarketMaker.initialize]: the failure of the bootstrap is logged as a
    warning and swallowed. *)
Definition market_maker_initialize (r : result (list rest_order)) (om : OrderManager)
  : OrderManager * list (string * string) :=
  match initialize r om with
  | (om', Ok _) => (om', [])
  | (om', Raise e) =>
      (om', [("WARNING",
              "Order manager initialization failed, continuing without REST data: "
              +:+ str_of_exn e)])
  end.

(** [is_ready]: [self.is_initialized and self.state is not None]. *)
Definition is_ready (om : OrderManager) : bool := is_initialized om.

End orders.

(* ===================================================================== *)
(** * roxom/roxom_ws.py: message dispatch *)
(* ===================================================================== *)

Module roxom_ws.
Import Py state.

(** A value of a decoded message: a scalar, or an object of scalars (the
    ['data'] and ['arg'] payloads). *)
Inductive json : Type :=
| JScalar (v : pyval)
| JObject (d : gmap string pyval).

#[global] Instance json_eq_dec : EqDecision json.
Proof. solve_decision. Defined.

(** What [json.loads(raw_message)] gives: a [JSONDecodeError], a value
    that is not an object, or an object. *)
Inductive decoded : Type :=
| NotJson
| NotObject
| Object (message : gmap string json).

(** The part of [RoxomWebSocketClient] the handlers read and write. *)
Record client : Type := {
  account_state : AccountDataState;
  connection_id : option json;
  is_authenticated : bool
}.

(** [_handle_order_update].  [data] is [message.get('data', {})]: a
    missing key gives the empty dictionary; on a value that is not a
    dictionary [update_order] raises at its first [.get], before any write,
    and the handler's [except] logs it. *)
Definition _handle_order_update (data : option json) (now1 now2 : string) (c : client)
  : client :=
  match data with
  | Some (JScalar _) => c
  | Some (JObject d) =>
      {| account_state := update_order d now1 now2 (account_state c);
         connection_id := connection_id c; is_authenticated := is_authenticated c |}
  | None =>
      {| account_state := update_order ∅ now1 now2 (account_state c);
         connection_id := connection_id c; is_authenticated := is_authenticated c |}
  end.

(** [_handle_data_message] *)
Definition _handle_data_message (message : gmap string json) (now1 now2 : string)
    (c : client) : client :=
  let msg_type := message !! "type" in
  if bool_decide (msg_type = Some (JScalar (PStr "order")))
  then _handle_order_update (message !! "data") now1 now2 c
  else c.   (* 'balance': discarded; anything else: a warning *)

(** [_handle_event_message] *)
Definition _handle_event_message (message : gmap string json) (c : client) : client :=
  let event := message !! "event" in
  let code := message !! "code" in
  let conn_id := message !! "connId" in
  if bool_decide (event = Some (JScalar (PStr "subscribe"))) then
    if bool_decide (code = Some (JScalar (PStr "0")))
    then {| account_state := account_state c;
            connection_id := conn_id; is_authenticated := is_authenticated c |}
    else c
  else if bool_decide (event = Some (JScalar (PStr "error"))) then
    if bool_decide (code = Some (JScalar (PStr "600010")))
    then {| account_state := account_state c;
            connection_id := connection_id c; is_authenticated := false |}
    else c
  else c.

(** [_handle_message].  A decoding error, and any exception raised on a
    value that is not an object, are caught and logged. *)
Definition _handle_message (raw : decoded) (now1 now2 : string) (c : client) : client :=
  match raw with
  | NotJson => c
  | NotObject => c
  | Object message =>
      if bool_decide (is_Some (message !! "event")) then _handle_event_message message c
      else if bool_decide (is_Some (message !! "type"))
           then _handle_data_message message now1 now2 c
           else c
  end.

End roxom_ws.

(* ===================================================================== *)
(** * dashboard/server.py: the quotes endpoint *)
(* ===================================================================== *)

Module dashboard.
Import Py.

(** The body of a successful [/api/quotes] reply. *)
Record quote_data : Type := {
  q_timestamp : float;
  q_fair_price : float;
  q_bid_price : float;
  q_ask_price : float;
  q_spread : float;
  q_spread_bps : float;
  q_uptime : float;
  q_current_orders : market_maker.quote_slots
}.

(** What [_send_json_response] is given: a body and a status code. *)
Inductive response : Type :=
| json_response (body : quote_data) (status_code : Z)
| error_response (error : string) (status_code : Z).

(** [_handle_quotes_api].  [now1] and [now2] are the two readings of
    [time.time()], [start_time] is [market_maker.start_time]. *)
Definition _handle_quotes_api (now1 now2 start_time : float)
    (mm : market_maker.MarketMaker) : response :=
  let attempt : result response :=
    fair_price ← pricing.get_fair_price (market_maker.market_state mm);
    match fair_price with
    | None => Ok (error_response "No fair price available" 503)
    | Some fair_price =>
        if negb (float_truthy fair_price)
        then Ok (error_response "No fair price available" 503)
        else
          prices ← pricing.calculate_bid_ask_prices fair_price;
          let bid_price := prices.1 in
          let ask_price := prices.2 in
          ratio ← truediv (ask_price - bid_price)%float fair_price;
          Ok (json_response
                {| q_timestamp := now1;
                   q_fair_price := fair_price;
                   q_bid_price := bid_price;
                   q_ask_price := ask_price;
                   q_spread := (ask_price - bid_price)%float;
                   q_spread_bps := (ratio * 10000)%float;
                   q_uptime := (now2 - start_time)%float;
                   q_current_orders := market_maker.current_orders mm |}
                200)
    end in
  match attempt with
  | Ok resp => resp
  | Raise _ => error_response "Failed to get quotes" 500
  end.

End dashboard.

(* ===================================================================== *)
(** * Vocabulary of the specification *)
(* ===================================================================== *)

Module spec.
Import market_data.

(** Both a bid and an ask are present for [symbol]. *)
Definition both_sides (st : MarketDataState) (symbol : string) : option (float * float) :=
  match prices st !! symbol with
  | Some (PriceData (Some b) (Some a)) => Some (b, a)
  | _ => None
  end.

(** [p] is an integer multiple of [tick], as exact numbers. *)
Definition exact_multiple (p tick : Q) : Prop :=
  exists n : Z, (p == inject_Z n * tick)%Q.

(** The float [p] is exactly an integer multiple of the float [TICK_SIZE]. *)
Definition tick_multiple (p : float) : Prop :=
  exists qp qt, Py.exact p = Some qp /\ Py.exact settings.TICK_SIZE = Some qt
                /\ exact_multiple qp qt.

(** The order map has an entry for [order_id]. *)
Definition tracked (st : state.AccountDataState) (order_id : Py.pyval) : Prop :=
  is_Some (state.orders st !! order_id).

(** The tick as the decimal [0.000001] that [TICK_SIZE] approximates. *)
Definition decimal_tick : Q := (1 # 1000000)%Q.

End spec.

(* ===================================================================== *)
(** * Scenarios: concrete states and events used below *)
(* ===================================================================== *)

Module scenario.
Import Py state.

(** The spec's end-to-end prices: PAXGUSDT (2000.0, 2000.2) and
    BTCUSDT (60000, 60010). *)
Definition spec_prices : market_data.MarketDataState :=
  market_data.update_price "BTCUSDT" 60000 60010
    (market_data.update_price "PAXGUSDT" 2000 0x1.f40cccccccccdp+10 market_data.init).

(** All four sides present, the two of BTCUSDT being zero. *)
Definition zero_btc_prices : market_data.MarketDataState :=
  market_data.update_price "BTCUSDT" 0 0
    (market_data.update_price "PAXGUSDT" 2000 0x1.f40cccccccccdp+10 market_data.init).

(** The fair price of [spec_prices], and its quotes. *)
Definition spec_fair_price : float :=
  Eval vm_compute in
    match pricing.get_fair_price spec_prices with
    | Py.Ok (Some f) => f
    | _ => nan
    end.

Definition spec_quotes : float * float :=
  Eval vm_compute in
    match pricing.calculate_bid_ask_prices spec_fair_price with
    | Py.Ok q => q
    | _ => (nan, nan)
    end.

(** A small positive fair price, and its quotes. *)
Definition small_fair_price : float := 0.001%float.

Definition small_quotes : float * float :=
  Eval vm_compute in
    match pricing.calculate_bid_ask_prices small_fair_price with
    | Py.Ok q => q
    | _ => (nan, nan)
    end.

(** An order event with an id, a status and a venue timestamp. *)
Definition order_event (id st : string) (ts : Z) : update :=
  Update (list_to_map [("orderId", PStr id); ("status", PStr st); ("timestamp", PInt ts)])
         "2024-01-01T00:00:00" "2024-01-01T00:00:00".

(** An event whose [orderId] key is missing, and one where it is [null]. *)
Definition event_without_id : gmap string pyval :=
  list_to_map [("status", PStr "filled")].
Definition event_null_id : gmap string pyval :=
  list_to_map [("orderId", PNone); ("status", PStr "filled")].

(** Order [A1] reported filled, then a late [submitted] for it. *)
Definition filled_A1 : AccountDataState :=
  apply_update state.init (order_event "A1" "filled" 1).
Definition late_submitted_A1 : update := order_event "A1" "submitted" 2.

(** 1001 events for one order, told apart by their venue timestamps. *)
Definition many_events : list update :=
  map (fun i => order_event "A1" "submitted" (Z.of_nat i)) (seq 1 1001).

(** A coordinator with the spec's prices, given orders and slots. *)
Definition coordinator (a : AccountDataState) (bid ask : pyval) : market_maker.MarketMaker :=
  {| market_maker.market_state := spec_prices;
     market_maker.account_state := a;
     market_maker.current_orders := {| market_maker.bid_id := bid; market_maker.ask_id := ask |};
     market_maker.current_position := market_maker.current_position market_maker.init |}.

(** A cycle in which every cancellation returns, no other task runs
    during the two suspensions, and the placements reply as given. *)
Definition quiet_cycle (bid ask : result market_maker.place_body) : market_maker.cycle_oracle :=
  {| market_maker.cancel_reply := fun _ _ => Ok ∅;
     market_maker.during_cancel := [];
     market_maker.bid_reply := bid;
     market_maker.ask_reply := ask;
     market_maker.during_place := [];
     market_maker.bid_timestamp := "2024-01-01T00:00:05";
     market_maker.bid_now1 := "2024-01-01T00:00:05";
     market_maker.bid_now2 := "2024-01-01T00:00:05";
     market_maker.ask_timestamp := "2024-01-01T00:00:05";
     market_maker.ask_now1 := "2024-01-01T00:00:05";
     market_maker.ask_now2 := "2024-01-01T00:00:05" |}.

(** A successful placement reply carrying a venue order id. *)
Definition placed (id : string) : result market_maker.place_body :=
  Ok {| market_maker.data :=
          Some {| market_maker.pd_orderId := Some (PStr id);
                  market_maker.pd_accountId := PStr "acct" |} |}.

(** What [_make_request] raises on a transport failure. *)
Definition request_failed : exn :=
  Exn "Exception" "Roxom API request failed: connection refused".

(** Order [A1] resting on the venue, referenced by the bid slot. *)
Definition live_A1 : market_maker.MarketMaker :=
  coordinator (apply_update state.init (order_event "A1" "submitted" 1)) (PStr "A1") PNone.

(** Order [A1] already filled, still referenced by the bid slot. *)
Definition stale_A1 : market_maker.MarketMaker :=
  coordinator filled_A1 (PStr "A1") PNone.

(** The quiet cycle, except that the emergency cleanup runs (and its
    cancel-all returns) while the two placements are in flight. *)
Definition cleanup_while_placing (bid ask : result market_maker.place_body)
  : market_maker.cycle_oracle :=
  {| market_maker.cancel_reply := market_maker.cancel_reply (quiet_cycle bid ask);
     market_maker.during_cancel := [];
     market_maker.bid_reply := bid;
     market_maker.ask_reply := ask;
     market_maker.during_place := [market_maker.emergency_cleanup (Ok ∅)];
     market_maker.bid_timestamp := "2024-01-01T00:00:05";
     market_maker.bid_now1 := "2024-01-01T00:00:05";
     market_maker.bid_now2 := "2024-01-01T00:00:05";
     market_maker.ask_timestamp := "2024-01-01T00:00:05";
     market_maker.ask_now1 := "2024-01-01T00:00:05";
     market_maker.ask_now2 := "2024-01-01T00:00:05" |}.

(** A cycle in which every cancellation fails and no other task runs. *)
Definition cancels_fail : market_maker.cycle_oracle :=
  {| market_maker.cancel_reply := fun _ _ => Raise request_failed;
     market_maker.during_cancel := [];
     market_maker.bid_reply := placed "B1";
     market_maker.ask_reply := placed "S1";
     market_maker.during_place := [];
     market_maker.bid_timestamp := "2024-01-01T00:00:05";
     market_maker.bid_now1 := "2024-01-01T00:00:05";
     market_maker.bid_now2 := "2024-01-01T00:00:05";
     market_maker.ask_timestamp := "2024-01-01T00:00:05";
     market_maker.ask_now1 := "2024-01-01T00:00:05";
     market_maker.ask_now2 := "2024-01-01T00:00:05" |}.

(** No orders, both slots empty. *)
Definition fresh : market_maker.MarketMaker := coordinator state.init PNone PNone.

End scenario.

(* ===================================================================== *)
(** * Order state: [update_order] *)
(* ===================================================================== *)

Section order_state.
Import Py state.

Implicit Types (st : AccountDataState) (order_data : gmap string pyval).

Lemma get_missing order_data k : order_data !! k = None -> get order_data k = PNone.
Proof. unfold get. intros ->. reflexivity. Qed.

Lemma get_null order_data k : order_data !! k = Some PNone -> get order_data k = PNone.
Proof. unfold get. intros ->. reflexivity. Qed.

(** The two branches of the trimming [if] are one slice. *)
Lemma trim_is_last_n {A} (l : list A) :
  (if (HISTORY_LIMIT <? length l)%nat then last_n HISTORY_LIMIT l else l)
  = last_n HISTORY_LIMIT l.
Proof.
  destruct (Nat.ltb_spec HISTORY_LIMIT (length l)) as [Hlt|Hge]; [reflexivity|].
  unfold last_n. replace (length l - HISTORY_LIMIT)%nat with 0%nat by lia.
  reflexivity.
Qed.

Lemma length_last_n {A} (n : nat) (l : list A) : (length (last_n n l) <= n)%nat.
Proof. unfold last_n. rewrite length_drop. lia. Qed.

(** Trimming early and trimming late agree, for a bound of at least one. *)
Lemma last_n_snoc {A} (n : nat) (l : list A) (e : A) :
  (0 < n)%nat -> last_n n (last_n n l ++ [e]) = last_n n (l ++ [e]).
Proof.
  intros Hn. unfold last_n.
  rewrite !length_app, length_drop. cbn [length].
  destruct (Nat.le_gt_cases (length l) n) as [Hle|Hgt].
  - replace (length l - n)%nat with 0%nat by lia. rewrite drop_0.
    f_equal. lia.
  - replace (length l - (length l - n) + 1 - n)%nat with 1%nat by lia.
    replace (length l + 1 - n)%nat with (1 + (length l - n))%nat by lia.
    rewrite (drop_app_le l [e]) by lia.
    rewrite (drop_app_le (drop _ l) [e]) by (rewrite length_drop; lia).
    rewrite drop_drop. do 2 f_equal. lia.
Qed.

(** What one call does to the history. *)
Lemma update_order_history order_data now1 now2 st :
  order_history (update_order order_data now1 now2 st)
  = if truthy (get order_data "orderId")
    then last_n HISTORY_LIMIT
           (order_history st ++
            [history_entry_of (get order_data "orderId")
               (previous_status_of st (get order_data "orderId")) order_data now2])
    else order_history st.
Proof.
  unfold update_order.
  destruct (truthy (get order_data "orderId")); cbn [negb]; [|reflexivity].
  cbn [order_history]. apply trim_is_last_n.
Qed.

(** The bounded list is the tail of everything that was appended. *)
Lemma history_is_tail_of_appended us : forall st full,
  order_history st = last_n HISTORY_LIMIT full ->
  order_history (apply_updates us st)
  = last_n HISTORY_LIMIT (full ++ appended us st).
Proof.
  induction us as [|u us IH]; intros st full Hst.
  - cbn. rewrite app_nil_r. exact Hst.
  - cbn [apply_updates foldl appended].
    change (foldl apply_update (apply_update st u) us)
      with (apply_updates us (apply_update st u)).
    rewrite app_assoc. apply IH.
    unfold apply_update at 1. rewrite update_order_history.
    destruct (truthy (get (u_data u) "orderId")).
    + rewrite Hst. apply last_n_snoc. unfold HISTORY_LIMIT. lia.
    + rewrite app_nil_r. exact Hst.
Qed.

End order_state.

Section order_state_claims.
Import Py state.

Implicit Types (st : AccountDataState) (order_data : gmap string pyval).

(** C1, as amended.  [update_order] has no guard on the previous status:
    for every state, whatever the recorded status of the order (terminal
    or not), an event with a non-empty [orderId] replaces the whole
    record of that order by the fields of the event, so the status
    afterwards is the status of the event; the other orders are left as
    they were. *)
Theorem update_order_replaces_wholesale st order_data now1 now2 :
  truthy (get order_data "orderId") = true ->
  let order_id := get order_data "orderId" in
  let st' := update_order order_data now1 now2 st in
  get_order st' order_id = Some (order_of_event order_id order_data now1)
  /\ get_order_status st' order_id = Some (get order_data "status")
  /\ (forall other, other <> order_id -> get_order st' other = get_order st other).
Proof.
  intros Hid order_id st'. subst order_id st'. unfold update_order.
  rewrite Hid. cbn [negb].
  unfold get_order, get_order_status. cbn [orders].
  repeat split.
  - apply lookup_insert_eq.
  - rewrite lookup_insert_eq. reflexivity.
  - intros other Hne. apply lookup_insert_ne. congruence.
Qed.

(** C1, the claim as stated fails: order [A1] is recorded as [filled]
    (terminal), and a later [submitted] event for it is applied: the
    status becomes [submitted] and the order counts as active again. *)
Lemma terminal_update_is_not_a_noop :
  get_order_status scenario.filled_A1 (PStr "A1") = Some (PStr "filled")
  /\ is_order_active scenario.filled_A1 (PStr "A1") = false
  /\ get_order_status (apply_update scenario.filled_A1 scenario.late_submitted_A1)
       (PStr "A1") = Some (PStr "submitted")
  /\ is_order_active (apply_update scenario.filled_A1 scenario.late_submitted_A1)
       (PStr "A1") = true
  /\ apply_update scenario.filled_A1 scenario.late_submitted_A1 <> scenario.filled_A1.
Proof.
  assert (Hafter : get_order_status
            (apply_update scenario.filled_A1 scenario.late_submitted_A1) (PStr "A1")
          = Some (PStr "submitted")) by (vm_compute; reflexivity).
  repeat split; try (vm_compute; reflexivity).
  intros Heq. rewrite Heq in Hafter. vm_compute in Hafter. discriminate.
Qed.

Lemma update_order_replaces_wholesale_witness :
  get_order_status
    (apply_update scenario.filled_A1 scenario.late_submitted_A1) (PStr "A1")
  = Some (PStr "submitted").
Proof.
  exact (proj1 (proj2
    (update_order_replaces_wholesale scenario.filled_A1
       (u_data scenario.late_submitted_A1) _ _ eq_refl))).
Defined.

(** C9.  An event whose [orderId] is missing or [null] changes nothing:
    the state returned is the state given, orders map and history alike. *)
Theorem update_order_without_id_is_noop st order_data now1 now2 :
  order_data !! "orderId" = None \/ order_data !! "orderId" = Some PNone ->
  update_order order_data now1 now2 st = st
  /\ orders (update_order order_data now1 now2 st) = orders st
  /\ order_history (update_order order_data now1 now2 st) = order_history st.
Proof.
  intros H.
  assert (Hget : get order_data "orderId" = PNone)
    by (destruct H; [apply get_missing | apply get_null]; assumption).
  assert (Hnoop : update_order order_data now1 now2 st = st)
    by (unfold update_order; rewrite Hget; reflexivity).
  rewrite Hnoop. auto.
Qed.

Lemma update_order_without_id_is_noop_witness :
  update_order scenario.event_without_id "t" "t" scenario.filled_A1 = scenario.filled_A1
  /\ update_order scenario.event_null_id "t" "t" scenario.filled_A1 = scenario.filled_A1.
Proof.
  split.
  - apply (update_order_without_id_is_noop scenario.filled_A1 scenario.event_without_id).
    left. vm_compute. reflexivity.
  - apply (update_order_without_id_is_noop scenario.filled_A1 scenario.event_null_id).
    right. vm_compute. reflexivity.
Defined.

(** C8.  After any sequence of [update_order] calls on a fresh state the
    history holds at most 1000 entries, and it is the last 1000 of the
    entries appended, in order.  So when 1001 entries have been appended
    ([e] first, then [rest]), the history is exactly [rest]: the earliest
    entry has been dropped (it is absent unless an equal entry was
    appended later) and the 1001st is the last element. *)
Theorem history_ring_bounded (us : list update) :
  let st := apply_updates us state.init in
  (length (order_history st) <= 1000)%nat
  /\ order_history st = last_n 1000 (appended us state.init)
  /\ (forall e rest,
        appended us state.init = e :: rest -> length rest = 1000%nat ->
        order_history st = rest
        /\ (e ∉ rest -> e ∉ order_history st)
        /\ last (order_history st) = last (appended us state.init)
        /\ forall x, last (appended us state.init) = Some x -> x ∈ order_history st).
Proof.
  intros st.
  assert (Htail : order_history st = last_n HISTORY_LIMIT (appended us state.init)).
  { subst st. apply (history_is_tail_of_appended us state.init []). reflexivity. }
  split; [|split].
  - rewrite Htail. apply (length_last_n HISTORY_LIMIT).
  - exact Htail.
  - intros e rest Happ Hlen.
    assert (Hrest : order_history st = rest).
    { rewrite Htail, Happ. unfold last_n. cbn [length].
      rewrite Hlen. replace (S 1000 - HISTORY_LIMIT)%nat with 1%nat
        by (unfold HISTORY_LIMIT; lia).
      reflexivity. }
    assert (Hlast : last (order_history st) = last (appended us state.init)).
    { rewrite Hrest, Happ. destruct rest as [|r rest']; [discriminate Hlen|].
      reflexivity. }
    repeat split.
    + exact Hrest.
    + rewrite Hrest. auto.
    + exact Hlast.
    + intros x Hx. rewrite <- Hlast in Hx.
      apply last_Some in Hx as [l' ->]. set_solver.
Qed.

Lemma history_ring_bounded_witness :
  let st := apply_updates scenario.many_events state.init in
  length (order_history st) = 1000%nat
  /\ ((history_entry_of (PStr "A1") (PStr "unknown")
         (u_data (scenario.order_event "A1" "submitted" 1)) "2024-01-01T00:00:00")
      ∉ order_history st)
  /\ ((history_entry_of (PStr "A1") (PStr "submitted")
         (u_data (scenario.order_event "A1" "submitted" 1001)) "2024-01-01T00:00:00")
      ∈ order_history st).
Proof.
  intros st.
  destruct (history_ring_bounded scenario.many_events) as (_ & _ & H).
  destruct (H (history_entry_of (PStr "A1") (PStr "unknown")
                 (u_data (scenario.order_event "A1" "submitted" 1)) "2024-01-01T00:00:00")
              (tail (appended scenario.many_events state.init)))
    as (Hrest & Habsent & _ & Hlast).
  - vm_compute. reflexivity.
  - vm_compute. reflexivity.
  - fold st in Hrest, Habsent, Hlast. split; [|split].
    + rewrite Hrest. vm_compute. reflexivity.
    + apply Habsent. apply (bool_decide_unpack _). vm_compute. exact I.
    + apply Hlast. vm_compute. reflexivity.
Defined.

End order_state_claims.

(* ===================================================================== *)
(** * Pricing: [get_fair_price] and [calculate_bid_ask_prices] *)
(* ===================================================================== *)

Section pricing_claims.
Import Py market_data pricing spec.

Implicit Types (st : MarketDataState).

Lemma configured_symbols : map upper settings.PRICE_SYMBOLS = ["PAXGUSDT"; "BTCUSDT"].
Proof. reflexivity. Qed.

(** [has_data] on the two configured symbols says that all four sides
    are present. *)
Lemma has_data_both_sides st :
  has_data st ["PAXGUSDT"; "BTCUSDT"]
  = match both_sides st "PAXGUSDT", both_sides st "BTCUSDT" with
    | Some _, Some _ => true
    | _, _ => false
    end.
Proof.
  unfold both_sides. cbn [has_data].
  destruct (prices st !! "PAXGUSDT") as [[[pb|] [pa|]]|];
    destruct (prices st !! "BTCUSDT") as [[[bb|] [ba|]]|]; reflexivity.
Qed.

(** The whole function, by cases on the presence of the four sides. *)
Lemma get_fair_price_unfold st :
  get_fair_price st
  = match both_sides st "PAXGUSDT", both_sides st "BTCUSDT" with
    | Some (pb, pa), Some (bb, ba) =>
        if (((bb + ba) / 2) =? 0)%float then Raise ZeroDivisionError
        else Ok (Some (((pb + pa) / 2) / ((bb + ba) / 2))%float)
    | _, _ => Ok None
    end.
Proof.
  unfold get_fair_price. rewrite configured_symbols, has_data_both_sides.
  unfold both_sides, get_price.
  destruct (prices st !! "PAXGUSDT") as [[[pb|] [pa|]]|]; try reflexivity;
    destruct (prices st !! "BTCUSDT") as [[[bb|] [ba|]]|]; try reflexivity.
  cbn. unfold truediv.
  destruct (((bb + ba) / 2) =? 0)%float; reflexivity.
Qed.

(** C6, as amended.  If either side of either symbol is absent,
    [get_fair_price] returns [None].  If all four sides are present it
    returns [midA / midB], with [mid = (bid + ask) / 2], provided [midB]
    is not zero; when [midB] is zero it raises [ZeroDivisionError] and
    returns nothing. *)
Theorem get_fair_price_cases st :
  (forall symbol, symbol ∈ ["PAXGUSDT"; "BTCUSDT"] -> both_sides st symbol = None ->
     get_fair_price st = Ok None)
  /\ (forall pb pa bb ba,
        both_sides st "PAXGUSDT" = Some (pb, pa) ->
        both_sides st "BTCUSDT" = Some (bb, ba) ->
        let midA := ((pb + pa) / 2)%float in
        let midB := ((bb + ba) / 2)%float in
        get_fair_price st
        = if (midB =? 0)%float then Raise ZeroDivisionError
          else Ok (Some (midA / midB)%float)).
Proof.
  split.
  - intros symbol Hin Hnone. rewrite get_fair_price_unfold.
    apply elem_of_cons in Hin as [->|Hin];
      [|apply elem_of_cons in Hin as [->|Hin]; [|inversion Hin]].
    + rewrite Hnone. reflexivity.
    + rewrite Hnone. destruct (both_sides st "PAXGUSDT") as [[? ?]|]; reflexivity.
  - intros pb pa bb ba HA HB midA midB. rewrite get_fair_price_unfold, HA, HB.
    reflexivity.
Qed.

Lemma get_fair_price_cases_witness :
  get_fair_price market_data.init = Ok None
  /\ get_fair_price scenario.spec_prices
     = Ok (Some (((2000 + 0x1.f40cccccccccdp+10) / 2) / ((60000 + 60010) / 2))%float).
Proof.
  split.
  - apply (proj1 (get_fair_price_cases market_data.init) "BTCUSDT").
    + set_solver.
    + vm_compute. reflexivity.
  - apply (proj2 (get_fair_price_cases scenario.spec_prices)
             2000%float 0x1.f40cccccccccdp+10%float 60000%float 60010%float).
    + vm_compute. reflexivity.
    + vm_compute. reflexivity.
Defined.

(** C6, the claim as stated fails: with all four sides present and the
    BTCUSDT sides both zero, no price is returned; the division raises. *)
Lemma get_fair_price_zero_divisor :
  both_sides scenario.zero_btc_prices "PAXGUSDT" = Some (2000, 0x1.f40cccccccccdp+10)%float
  /\ both_sides scenario.zero_btc_prices "BTCUSDT" = Some (0, 0)%float
  /\ get_fair_price scenario.zero_btc_prices = Raise ZeroDivisionError
  /\ (forall p, get_fair_price scenario.zero_btc_prices <> Ok p).
Proof.
  assert (H : get_fair_price scenario.zero_btc_prices = Raise ZeroDivisionError)
    by (vm_compute; reflexivity).
  repeat split; try (vm_compute; reflexivity).
  intros p Hp. rewrite H in Hp. discriminate.
Qed.

(** [round] is to the nearest integer: twice the distance between the
    result and [m * 2^e] is at most one unit. *)
Lemma round_half_even_nearest (m : positive) (e : Z) :
  e < 0 ->
  let d := 2 ^ (- e) in
  Z.abs (2 * (round_half_even m e * d - Z.pos m)) <= d.
Proof.
  intros He d. unfold round_half_even.
  destruct (Z.leb_spec 0 e) as [Hle|_]; [lia|]. fold d.
  assert (Hd : 0 < d) by (apply Z.pow_pos_nonneg; lia).
  pose proof (Z.div_mod (Z.pos m) d ltac:(lia)) as Hdm.
  pose proof (Z.mod_pos_bound (Z.pos m) d Hd) as Hr.
  destruct (Z.compare_spec (2 * (Z.pos m mod d)) d) as [Heq|Hlt|Hgt];
    [destruct (Z.even (Z.pos m / d))| |]; nia.
Qed.

Lemma bind_Ok_inv {A B} (r : result A) (k : A -> result B) (b : B) :
  r ≫= k = Ok b -> exists a, r = Ok a /\ k a = Ok b.
Proof. destruct r as [a|e]; [eauto|discriminate]. Qed.

Lemma tick_size_nonzero : (settings.TICK_SIZE =? 0)%float = false.
Proof. reflexivity. Qed.

Lemma round_to_tick_inv (p r : float) :
  round_to_tick p = Ok r ->
  exists (k : Z) (fk : float),
    round (p / settings.TICK_SIZE)%float = Ok k
    /\ float_of_int k = Ok fk
    /\ r = (fk * settings.TICK_SIZE)%float.
Proof.
  unfold round_to_tick, truediv. rewrite tick_size_nonzero.
  intros H. apply bind_Ok_inv in H as (q & [= <-] & H).
  apply bind_Ok_inv in H as (k & Hk & H).
  unfold int_mul_float in H. apply bind_Ok_inv in H as (fk & Hfk & [= <-]).
  exists k, fk. auto.
Qed.

(** C7, as amended.  Whenever [calculate_bid_ask_prices] returns, it has
    computed, in binary64 arithmetic, [half = (fair * (20 / 10000)) / 2],
    [bid = fair - half] and [ask = fair + half], and each returned price
    is the binary64 product [k * TICK_SIZE] of the tick size with the
    integer [k = round(price / TICK_SIZE)] (nearest, ties to even).  The
    product is rounded like any float product: nothing is said about it
    being an exact multiple. *)
Theorem calculate_bid_ask_prices_formula (fair_price bid_price ask_price : float) :
  calculate_bid_ask_prices fair_price = Ok (bid_price, ask_price) ->
  let half_spread := ((fair_price * (20 / 10000)) / 2)%float in
  let bid := (fair_price - half_spread)%float in
  let ask := (fair_price + half_spread)%float in
  exists (kb ka : Z) (fb fa : float),
    round (bid / settings.TICK_SIZE)%float = Ok kb
    /\ round (ask / settings.TICK_SIZE)%float = Ok ka
    /\ float_of_int kb = Ok fb /\ float_of_int ka = Ok fa
    /\ bid_price = (fb * settings.TICK_SIZE)%float
    /\ ask_price = (fa * settings.TICK_SIZE)%float.
Proof.
  intros H half_spread bid ask.
  unfold calculate_bid_ask_prices, spread_fraction in H.
  fold half_spread in H. fold bid ask in H.
  apply bind_Ok_inv in H as (rb & Hb & H).
  apply bind_Ok_inv in H as (ra & Ha & [= <- <-]).
  apply round_to_tick_inv in Hb as (kb & fb & Hkb & Hfb & ->).
  apply round_to_tick_inv in Ha as (ka & fa & Hka & Hfa & ->).
  exists kb, ka, fb, fa. auto 10.
Qed.

Lemma calculate_bid_ask_prices_formula_witness :
  exists (kb ka : Z) (fb fa : float),
    round ((50000 - (50000 * (20 / 10000)) / 2) / settings.TICK_SIZE)%float = Ok kb
    /\ round ((50000 + (50000 * (20 / 10000)) / 2) / settings.TICK_SIZE)%float = Ok ka
    /\ float_of_int kb = Ok fb /\ float_of_int ka = Ok fa
    /\ 49950%float = (fb * settings.TICK_SIZE)%float
    /\ 50050%float = (fa * settings.TICK_SIZE)%float.
Proof.
  apply (calculate_bid_ask_prices_formula 50000 49950 50050).
  vm_compute. reflexivity.
Defined.

(** The spec's example, [fair_price = 50000]: before rounding the prices
    are 49950 and 50050, 100 apart, which is [50000 * 0.002]; the prices
    returned are 49950.0 and 50050.0. *)
Example quote_50000 :
  let half := ((50000 * (20 / 10000)) / 2)%float in
  (50000 - half = 49950)%float /\ (50000 + half = 50050)%float
  /\ ((50000 + half) - (50000 - half) = 50000 * 0.002)%float
  /\ calculate_bid_ask_prices 50000 = Ok (49950, 50050)%float.
Proof. vm_compute. auto. Qed.

Lemma not_exact_multiple (a t : Z) (d e : positive) :
  (a * Z.pos e) mod (t * Z.pos d) <> 0 -> ~ exact_multiple (a # d) (t # e).
Proof.
  intros Hmod [n Hn]. apply Hmod.
  unfold Qeq in Hn. cbn [Qnum Qden Qmult inject_Z] in Hn.
  rewrite Pos.mul_1_l in Hn. rewrite Hn.
  replace (n * t * Z.pos d) with (n * (t * Z.pos d)) by ring.
  apply Z.mod_mul. intros H0. rewrite H0 in Hmod. rewrite Z.mod_0_r in Hmod.
  apply Hmod. rewrite Hn, <- Z.mul_assoc, H0. ring.
Qed.

(** C7, the claim as stated fails.  For the positive fair price 0.001 the
    bid before rounding is 999 ticks, and the bid returned is
    [999 * TICK_SIZE = 0.0009989999999999999]: it is not the float
    0.000999, dividing it by [TICK_SIZE] does not give 999 back, and as an
    exact number it is an integer multiple neither of the float
    [TICK_SIZE] nor of the decimal 0.000001. *)
Lemma quote_not_exact_multiple :
  (0 <? scenario.small_fair_price)%float = true
  /\ calculate_bid_ask_prices scenario.small_fair_price = Ok scenario.small_quotes
  /\ round ((scenario.small_fair_price
              - (scenario.small_fair_price * (20 / 10000)) / 2)
             / settings.TICK_SIZE)%float = Ok 999
  /\ scenario.small_quotes.1 <> 0.000999%float
  /\ (scenario.small_quotes.1 / settings.TICK_SIZE)%float <> 999%float
  /\ ~ tick_multiple scenario.small_quotes.1
  /\ (forall q, exact scenario.small_quotes.1 = Some q -> ~ exact_multiple q decimal_tick).
Proof.
  split; [vm_compute; reflexivity|].
  split; [vm_compute; reflexivity|].
  split; [vm_compute; reflexivity|].
  split; [|split; [|split]].
  - intros H. apply (f_equal Prim2SF) in H. vm_compute in H. discriminate.
  - intros H. apply (f_equal Prim2SF) in H. vm_compute in H. discriminate.
  - intros (qp & qt & Hp & Ht & Hm).
    vm_compute in Hp. vm_compute in Ht.
    injection Hp as <-. injection Ht as <-.
    revert Hm. apply not_exact_multiple. vm_compute. discriminate.
  - intros q Hq. vm_compute in Hq. injection Hq as <-.
    apply not_exact_multiple. vm_compute. discriminate.
Qed.

(** The spec's end-to-end prices give the fair price 0.0333322...; its bid
    is 33299 ticks and comes back as 0.033298999999999995, not 0.033299. *)
Example quote_spec_prices :
  get_fair_price scenario.spec_prices = Ok (Some scenario.spec_fair_price)
  /\ calculate_bid_ask_prices scenario.spec_fair_price = Ok scenario.spec_quotes
  /\ scenario.spec_quotes.1 <> 0.033299%float.
Proof.
  split; [vm_compute; reflexivity|]. split; [vm_compute; reflexivity|].
  intros H. apply (f_equal Prim2SF) in H. vm_compute in H. discriminate.
Qed.

End pricing_claims.

(* ===================================================================== *)
(** * Coordination: cleanup, polling and the quoting cycle *)
(* ===================================================================== *)

Section coordination.
Import Py state market_maker spec.

Implicit Types (st : AccountDataState) (mm : MarketMaker) (o : cycle_oracle).

(** ** Orders are never removed *)

Lemma active_is_tracked st order_id : is_order_active st order_id = true -> tracked st order_id.
Proof.
  unfold is_order_active, tracked. destruct (orders st !! order_id); [eauto|discriminate].
Qed.

Lemma cancelled_is_terminal : is_terminal (PStr "cancelled") = true.
Proof. reflexivity. Qed.

Lemma status_cancelled_inactive st order_id :
  get_order_status st order_id = Some (PStr "cancelled") ->
  is_order_active st order_id = false.
Proof.
  unfold get_order_status, is_order_active.
  destruct (orders st !! order_id) as [ord|]; [|discriminate].
  cbn. intros [= ->]. reflexivity.
Qed.

Lemma update_order_tracked order_data now1 now2 st order_id :
  tracked st order_id -> tracked (update_order order_data now1 now2 st) order_id.
Proof.
  unfold tracked, update_order. intros H.
  destruct (truthy (get order_data "orderId")); cbn [negb orders]; [|exact H].
  rewrite lookup_insert. case_decide; [eauto|exact H].
Qed.

Lemma lookup_cancel_active st order_id :
  orders (cancel_active_orders st) !! order_id
  = (fun ord => if is_order_active st order_id
                then set_status (PStr "cancelled") ord else ord)
    <$> orders st !! order_id.
Proof.
  unfold cancel_active_orders. cbn [orders]. rewrite map_lookup_imap.
  destruct (orders st !! order_id); reflexivity.
Qed.

Lemma cancel_active_tracked st order_id :
  tracked st order_id -> tracked (cancel_active_orders st) order_id.
Proof.
  unfold tracked. rewrite lookup_cancel_active. intros [ord ->]. cbn. eauto.
Qed.

Lemma account_state_update_position r now mm :
  account_state (_update_position r now mm).1.1 = account_state mm.
Proof.
  unfold _update_position.
  destruct (positions ← r; signed_total positions 0%float); reflexivity.
Qed.

Lemma run_task_tracked mm a order_id :
  tracked (account_state mm) order_id -> tracked (account_state (run_task mm a)) order_id.
Proof.
  intros H. destruct a as [u|symbol b a|r now|r]; cbn [run_task].
  - cbn. apply update_order_tracked, H.
  - exact H.
  - rewrite account_state_update_position. exact H.
  - destruct r; cbn; [apply cancel_active_tracked|]; exact H.
Qed.

Lemma run_tasks_tracked acts : forall mm order_id,
  tracked (account_state mm) order_id ->
  tracked (account_state (run_tasks acts mm)) order_id.
Proof.
  induction acts as [|a acts IH]; intros mm order_id H; [exact H|].
  cbn. apply IH, run_task_tracked, H.
Qed.

(** ** The loop over the cancellation results *)

Lemma mark_cancelled_self order_id st :
  tracked st order_id ->
  get_order_status (mark_cancelled order_id st) order_id = Some (PStr "cancelled").
Proof.
  unfold tracked, mark_cancelled, get_order, get_order_status. intros [ord ->].
  cbn [orders]. rewrite lookup_insert_eq. reflexivity.
Qed.

Lemma mark_cancelled_keeps other order_id st :
  get_order_status st order_id = Some (PStr "cancelled") ->
  get_order_status (mark_cancelled other st) order_id = Some (PStr "cancelled").
Proof.
  unfold mark_cancelled, get_order, get_order_status. intros H.
  destruct (orders st !! other) as [ord|] eqn:E; [|exact H].
  cbn [orders]. rewrite lookup_insert. case_decide; [reflexivity|exact H].
Qed.

Lemma mark_cancelled_tracked other order_id st :
  tracked st order_id -> tracked (mark_cancelled other st) order_id.
Proof.
  unfold mark_cancelled, get_order, tracked. intros H.
  destruct (orders st !! other) as [ord|] eqn:E; [|exact H].
  cbn [orders]. rewrite lookup_insert. case_decide; [eauto|exact H].
Qed.

Lemma process_cancellations_keeps results : forall st order_id,
  get_order_status st order_id = Some (PStr "cancelled") ->
  get_order_status (process_cancellations results st) order_id = Some (PStr "cancelled").
Proof.
  induction results as [|[[ot id] res] results IH]; intros st order_id H; [exact H|].
  cbn. apply IH. destruct res; [apply mark_cancelled_keeps|]; exact H.
Qed.

Lemma process_cancellations_marks results : forall st order_type order_id response,
  tracked st order_id ->
  ((order_type, order_id), Ok response) ∈ results ->
  get_order_status (process_cancellations results st) order_id = Some (PStr "cancelled").
Proof.
  induction results as [|[[ot id] res] results IH];
    intros st order_type order_id response Htr Hin; [inversion Hin|].
  apply elem_of_cons in Hin as [Heq|Hin].
  - injection Heq as <- <- <-. cbn.
    apply process_cancellations_keeps, mark_cancelled_self, Htr.
  - cbn. apply (IH _ order_type order_id response); [|exact Hin].
    destruct res; [apply mark_cancelled_tracked|]; exact Htr.
Qed.

Lemma elem_of_zip_map {A B} (f : A -> B) (l : list A) (x : A) :
  x ∈ l -> (x, f x) ∈ zip l (map f l).
Proof.
  induction l as [|y l IH]; intros H; [inversion H|].
  apply elem_of_cons in H as [->|H]; cbn; [left|right; apply IH, H].
Qed.

Lemma orders_to_cancel_spec mm order_type order_id :
  (order_type, order_id) ∈ orders_to_cancel mm
  <-> (order_type, order_id) ∈ items (current_orders mm)
      /\ truthy order_id = true
      /\ is_order_active (account_state mm) order_id = true.
Proof.
  unfold orders_to_cancel. rewrite list_elem_of_filter. cbn.
  rewrite andb_true_iff. tauto.
Qed.

(** What the place phase leaves when a placement raises: nothing of its
    own, only what the other tasks did meanwhile. *)
Lemma place_phase_raised o bid_price ask_price mm :
  (exists e, bid_reply o = Raise e) \/ (exists e, ask_reply o = Raise e) ->
  (place_phase o bid_price ask_price mm).1.1 = run_tasks (during_place o) mm.
Proof.
  unfold place_phase.
  intros [[e He]|[e He]]; rewrite He; [reflexivity|].
  destruct (bid_reply o); reflexivity.
Qed.

Lemma place_phase_calls o bid_price ask_price mm :
  (place_phase o bid_price ask_price mm).1.2
  = [place_order "buy" bid_price; place_order "sell" ask_price].
Proof.
  unfold place_phase.
  destruct (bid_reply o) as [b|e]; [|reflexivity].
  destruct (ask_reply o) as [a|e]; [|reflexivity].
  destruct (record_placements o b a (run_tasks (during_place o) mm)). reflexivity.
Qed.

Lemma cancel_phase_calls o mm :
  (cancel_phase o mm).2 = map (fun p => cancel_order p.2) (orders_to_cancel mm).
Proof. unfold cancel_phase. destruct (orders_to_cancel mm); reflexivity. Qed.

Lemma cancel_phase_slots o mm :
  current_orders (cancel_phase o mm).1
  = current_orders (match orders_to_cancel mm with
                    | [] => mm
                    | _ :: _ => run_tasks (during_cancel o) mm
                    end).
Proof. unfold cancel_phase. destruct (orders_to_cancel mm); reflexivity. Qed.

(** The calls of a cycle that gets past the price check. *)
Lemma quote_market_calls o mm fair_price bid_price ask_price :
  pricing.get_fair_price (market_state mm) = Ok (Some fair_price) ->
  float_truthy fair_price = true ->
  pricing.calculate_bid_ask_prices fair_price = Ok (bid_price, ask_price) ->
  calls (quote_market o mm)
  = (map (fun p => cancel_order p.2) (orders_to_cancel mm)
     ++ [place_order "buy" bid_price; place_order "sell" ask_price])%list.
Proof.
  intros Hfair Htruthy Hquote. unfold quote_market.
  rewrite Hfair, Htruthy, Hquote. cbn [negb].
  rewrite <- (cancel_phase_calls o mm).
  destruct (cancel_phase o mm) as [mm1 cancels]. cbn [snd].
  rewrite <- (place_phase_calls o bid_price ask_price mm1).
  destruct (place_phase o bid_price ask_price mm1) as [[mm2 places] e]. reflexivity.
Qed.

(** C2, as amended.  After [immediate_cleanup] both quote slots are
    [None], whether [cancel_all_orders] returned or raised.  When it
    returned (whatever the reply says), every order that was active has
    status ['cancelled'] and the others are as they were; when it raised,
    the order map and the history are left unchanged. *)
Theorem immediate_cleanup_post (r : result (gmap string pyval)) mm :
  let mm' := immediate_cleanup r mm in
  bid_id (current_orders mm') = PNone
  /\ ask_id (current_orders mm') = PNone
  /\ match r with
     | Ok _ =>
         forall order_id,
           (is_order_active (account_state mm) order_id = true ->
            get_order_status (account_state mm') order_id = Some (PStr "cancelled"))
           /\ (is_order_active (account_state mm) order_id = false ->
               get_order (account_state mm') order_id
               = get_order (account_state mm) order_id)
     | Raise _ => account_state mm' = account_state mm
     end.
Proof.
  destruct r as [response|e]; cbn; repeat split.
  - intros Hact. unfold get_order_status. rewrite lookup_cancel_active, Hact.
    destruct (active_is_tracked _ _ Hact) as [ord ->]. reflexivity.
  - intros Hact. unfold get_order. rewrite lookup_cancel_active, Hact.
    destruct (orders (account_state mm) !! order_id); reflexivity.
Qed.

(** C2, the claim as stated fails: [A1] is active and referenced by the
    bid slot; [cancel_all_orders] raises; afterwards the slots are empty
    but [A1] is still [submitted], and still active, in the local state. *)
Lemma cleanup_failure_keeps_orders_active :
  is_order_active (account_state scenario.live_A1) (PStr "A1") = true
  /\ current_orders (immediate_cleanup (Raise scenario.request_failed) scenario.live_A1)
     = cleared
  /\ get_order_status
       (account_state (immediate_cleanup (Raise scenario.request_failed) scenario.live_A1))
       (PStr "A1") = Some (PStr "submitted")
  /\ is_order_active
       (account_state (immediate_cleanup (Raise scenario.request_failed) scenario.live_A1))
       (PStr "A1") = true.
Proof. repeat split; vm_compute; reflexivity. Qed.

(** The cleanup is atomic, but a cycle suspended in its place phase
    resumes after it: the ids of the two placements are then written into
    the slots the cleanup had emptied, and registered as active orders. *)
Example cleanup_during_place_phase :
  let r := quote_market
             (scenario.cleanup_while_placing (scenario.placed "B1") (scenario.placed "S1"))
             scenario.live_A1 in
  get_order_status (account_state (final r)) (PStr "A1") = Some (PStr "cancelled")
  /\ current_orders (final r) = {| bid_id := PStr "B1"; ask_id := PStr "S1" |}
  /\ is_order_active (account_state (final r)) (PStr "B1") = true.
Proof. cbv zeta. repeat split; vm_compute; reflexivity. Qed.

(** C5: the code at the failing input.  When the positions call raises,
    [_update_position] logs a warning and returns normally, so the turn of
    the polling loop ends in the ordinary one-second wait; the loop's own
    handler, with its ten-second sleep, is not entered. *)
Theorem polling_failure_keeps_one_second_interval (e : exn) (now : string) mm :
  position_polling_turn (Raise e) now mm
  = (mm, [("WARNING", "Failed to update position: " +:+ str_of_exn e)],
     wait_for_shutdown 1%float)
  /\ forall r, (position_polling_turn r now mm).2 <> sleep 10.
Proof.
  split; [reflexivity|].
  intros r. unfold position_polling_turn, _update_position.
  destruct (positions ← r; signed_total positions 0%float); cbn; discriminate.
Qed.

(** C10.  In the cancel phase, an order that was submitted for
    cancellation and whose [cancel_order] call returned has status
    ['cancelled'] in the local state when the phase ends, so
    [is_order_active] is false for it: the coordinator writes the status
    itself, whatever the other tasks did during the suspension. *)
Theorem cancel_success_marks_cancelled o mm order_type order_id response :
  (order_type, order_id) ∈ orders_to_cancel mm ->
  cancel_reply o order_type order_id = Ok response ->
  let mm' := (cancel_phase o mm).1 in
  get_order_status (account_state mm') order_id = Some (PStr "cancelled")
  /\ is_order_active (account_state mm') order_id = false.
Proof.
  intros Hin Hreply mm'.
  assert (Hstatus : get_order_status (account_state mm') order_id = Some (PStr "cancelled")).
  { subst mm'. unfold cancel_phase.
    destruct (orders_to_cancel mm) as [|p l] eqn:E; [inversion Hin|].
    cbn [fst with_account_state account_state].
    apply (process_cancellations_marks _ _ order_type order_id response).
    - apply run_tasks_tracked, active_is_tracked.
      apply (orders_to_cancel_spec mm order_type order_id). rewrite E. exact Hin.
    - rewrite <- Hreply.
      apply (elem_of_zip_map (fun p => cancel_reply o p.1 p.2) (p :: l) (order_type, order_id)).
      exact Hin. }
  split; [exact Hstatus|]. apply status_cancelled_inactive, Hstatus.
Qed.

Lemma cancel_success_marks_cancelled_witness :
  let mm' := (cancel_phase (scenario.quiet_cycle (scenario.placed "B1") (scenario.placed "S1"))
                scenario.live_A1).1 in
  get_order_status (account_state mm') (PStr "A1") = Some (PStr "cancelled")
  /\ is_order_active (account_state mm') (PStr "A1") = false.
Proof.
  apply (cancel_success_marks_cancelled _ scenario.live_A1 "bid_id" (PStr "A1") ∅).
  - apply (bool_decide_unpack _). vm_compute. exact I.
  - reflexivity.
Defined.

(** C4, as amended.  In a cycle that gets past the price check, a slot
    holding a non-empty order id that [is_order_active] rejects leads to no
    [cancel_order] call for that id, and both placements are still issued.
    The slot is not cleared: the cancel phase writes no slot at all (its
    slots are those it found, or those the other tasks left during its
    suspension), so with no other task running the slot still refers to
    the inactive order when the place phase starts. *)
Theorem inactive_slot_is_skipped o mm fair_price bid_price ask_price order_type order_id :
  pricing.get_fair_price (market_state mm) = Ok (Some fair_price) ->
  float_truthy fair_price = true ->
  pricing.calculate_bid_ask_prices fair_price = Ok (bid_price, ask_price) ->
  (order_type, order_id) ∈ items (current_orders mm) ->
  truthy order_id = true ->
  is_order_active (account_state mm) order_id = false ->
  (cancel_order order_id ∉ calls (quote_market o mm))
  /\ (exists cancels,
        calls (quote_market o mm)
        = (cancels ++ [place_order "buy" bid_price; place_order "sell" ask_price])%list)
  /\ current_orders (cancel_phase o mm).1
     = current_orders (match orders_to_cancel mm with
                       | [] => mm
                       | _ :: _ => run_tasks (during_cancel o) mm
                       end)
  /\ (during_cancel o = [] -> current_orders (cancel_phase o mm).1 = current_orders mm).
Proof.
  intros Hfair Htruthy Hquote Hslot Hid Hinactive.
  rewrite (quote_market_calls o mm fair_price bid_price ask_price Hfair Htruthy Hquote).
  split; [|split; [|split]].
  - intros Hin. apply elem_of_app in Hin as [Hin|Hin].
    + apply list_elem_of_fmap in Hin as ([ot id] & Heq & Hin). cbn in Heq.
      injection Heq as <-.
      apply orders_to_cancel_spec in Hin as (_ & _ & Hact). congruence.
    + repeat (apply elem_of_cons in Hin as [Hin|Hin]; [discriminate|]). inversion Hin.
  - eauto.
  - apply cancel_phase_slots.
  - intros Hquiet. rewrite cancel_phase_slots, Hquiet.
    destruct (orders_to_cancel mm); reflexivity.
Qed.

Lemma inactive_slot_is_skipped_witness :
  (cancel_order (PStr "A1")
     ∉ calls (quote_market (scenario.quiet_cycle (scenario.placed "B1") (scenario.placed "S1"))
                scenario.stale_A1))
  /\ bid_id (current_orders
               (cancel_phase (scenario.quiet_cycle (scenario.placed "B1") (scenario.placed "S1"))
                  scenario.stale_A1).1) = PStr "A1".
Proof.
  destruct (inactive_slot_is_skipped
              (scenario.quiet_cycle (scenario.placed "B1") (scenario.placed "S1"))
              scenario.stale_A1 scenario.spec_fair_price
              scenario.spec_quotes.1 scenario.spec_quotes.2 "bid_id" (PStr "A1"))
    as (Hno & _ & _ & Hslots).
  - vm_compute. reflexivity.
  - vm_compute. reflexivity.
  - vm_compute. reflexivity.
  - apply (bool_decide_unpack _). vm_compute. exact I.
  - reflexivity.
  - vm_compute. reflexivity.
  - split; [exact Hno|]. rewrite Hslots; reflexivity.
Defined.

(** C4, the claim as stated fails: the bid slot refers to [A1], already
    filled, and both placements of the cycle fail.  No cancel is sent and
    both placements are attempted, but the slot is not cleared: at the end
    of the cycle it still refers to [A1]. *)
Lemma stale_slot_is_not_cleared :
  let r := quote_market
             (scenario.quiet_cycle (Raise scenario.request_failed)
                                   (Raise scenario.request_failed))
             scenario.stale_A1 in
  bid_id (current_orders scenario.stale_A1) = PStr "A1"
  /\ is_order_active (account_state scenario.stale_A1) (PStr "A1") = false
  /\ calls r = [place_order "buy" scenario.spec_quotes.1;
                place_order "sell" scenario.spec_quotes.2]
  /\ bid_id (current_orders (final r)) = PStr "A1"
  /\ bid_id (current_orders (final r)) <> PNone.
Proof.
  cbv zeta. repeat split; try (vm_compute; reflexivity).
  vm_compute. discriminate.
Qed.

(** C3: the code at the failing input.  The bid is placed and the venue
    returns the id [B1]; the ask placement raises.  Both calls were issued,
    the exception of the ask leaves the [await], and the cycle ends in its
    handler: the bid slot is still empty and [B1] is not in the order map. *)
Theorem one_sided_placement_is_not_recorded :
  let r := quote_market
             (scenario.quiet_cycle (scenario.placed "B1") (Raise scenario.request_failed))
             scenario.fresh in
  calls r = [place_order "buy" scenario.spec_quotes.1;
             place_order "sell" scenario.spec_quotes.2]
  /\ caught r = Some scenario.request_failed
  /\ bid_id (current_orders (final r)) = PNone
  /\ get_order (account_state (final r)) (PStr "B1") = None
  /\ final r = scenario.fresh.
Proof. cbv zeta. repeat split; vm_compute; reflexivity. Qed.

(** The same cycle with both placements returning, for comparison: each id
    is written to its slot and registered as [pendingsubmit]. *)
Example both_placements_recorded :
  let r := quote_market
             (scenario.quiet_cycle (scenario.placed "B1") (scenario.placed "S1"))
             scenario.fresh in
  current_orders (final r) = {| bid_id := PStr "B1"; ask_id := PStr "S1" |}
  /\ get_order_status (account_state (final r)) (PStr "B1") = Some (PStr "pendingsubmit")
  /\ get_order_status (account_state (final r)) (PStr "S1") = Some (PStr "pendingsubmit")
  /\ caught r = None.
Proof. cbv zeta. repeat split; vm_compute; reflexivity. Qed.

End coordination.

(* ===================================================================== *)
(** * Order state: the views *)
(* ===================================================================== *)

Section order_views.
Import Py state.

Implicit Types (st : AccountDataState) (ord : order).

Lemma is_terminal_spec (s : pyval) : is_terminal s = true <-> s ∈ terminal_states.
Proof. unfold is_terminal. apply bool_decide_eq_true. Qed.

Lemma is_terminal_false (s : pyval) : is_terminal s = false <-> s ∉ terminal_states.
Proof. unfold is_terminal. apply bool_decide_eq_false. Qed.

(** X1.  [get_active_orders] holds exactly the recorded orders whose status
    is none of the four terminal ones, each with its record unchanged, and
    [is_order_active] is membership in that view. *)
Theorem active_orders_view st (order_id : pyval) :
  (forall ord,
     get_active_orders st !! order_id = Some ord
     <-> get_order st order_id = Some ord /\ status ord ∉ terminal_states)
  /\ (is_order_active st order_id = true
      <-> is_Some (get_active_orders st !! order_id))
  /\ (get_order st order_id = None -> is_order_active st order_id = false).
Proof.
  unfold get_active_orders, get_order, is_order_active.
  split; [|split].
  - intros ord. rewrite map_lookup_filter_Some. cbn. rewrite is_terminal_false. tauto.
  - destruct (orders st !! order_id) as [ord|] eqn:E.
    + rewrite negb_true_iff. split.
      * intros H. exists ord. apply map_lookup_filter_Some. auto.
      * intros [ord' H]. apply map_lookup_filter_Some in H as [H1 H2].
        cbn in H2. congruence.
    + split; [discriminate|]. intros [ord' H].
      apply map_lookup_filter_Some in H as [H1 _]. congruence.
  - intros ->. reflexivity.
Qed.

(** X2.  [get_filled_orders] holds exactly the recorded orders with status
    ['filled']; none of them is active, and the filled and the active
    views share no order. *)
Theorem filled_orders_view st (order_id : pyval) :
  (forall ord,
     get_filled_orders st !! order_id = Some ord
     <-> get_order st order_id = Some ord /\ status ord = PStr "filled")
  /\ (is_Some (get_filled_orders st !! order_id) -> is_order_active st order_id = false)
  /\ get_filled_orders st ##ₘ get_active_orders st.
Proof.
  unfold get_filled_orders, get_active_orders, get_order, is_order_active.
  split; [|split].
  - intros ord. rewrite map_lookup_filter_Some. cbn. tauto.
  - intros [ord H]. apply map_lookup_filter_Some in H as [-> H2].
    cbn in H2. rewrite H2. reflexivity.
  - apply map_disjoint_spec. intros i x y Hx Hy.
    apply map_lookup_filter_Some in Hx as [Hx Hfilled].
    apply map_lookup_filter_Some in Hy as [Hy Hactive].
    cbn in Hfilled, Hactive. rewrite Hx in Hy. injection Hy as <-.
    rewrite Hfilled in Hactive. discriminate.
Qed.

(** The count kept for a status is the number of orders with that status. *)
Lemma summary_counts (m : gmap pyval order) (s : pyval) :
  default 0%nat
    (map_fold (fun _ order_data (summary : gmap pyval nat) =>
                 <[status order_data :=
                     (default 0 (summary !! status order_data) + 1)%nat]> summary)
              ∅ m !! s)
  = size (filter (fun kv => status kv.2 = s) m).
Proof.
  apply (map_fold_weak_ind (fun (summary : gmap pyval nat) m =>
           default 0%nat (summary !! s) = size (filter (fun kv => status kv.2 = s) m))).
  - rewrite lookup_empty, map_filter_empty, map_size_empty. reflexivity.
  - intros i ord m' summary Hfresh IH.
    destruct (decide (status ord = s)) as [Heq|Hne].
    + rewrite map_filter_insert_True by exact Heq.
      rewrite map_size_insert_None
        by (apply map_lookup_filter_None; left; exact Hfresh).
      rewrite Heq, lookup_insert_eq. cbn. rewrite IH. lia.
    + rewrite map_filter_insert_False by exact Hne.
      rewrite delete_id by exact Hfresh.
      rewrite lookup_insert_ne by exact Hne. exact IH.
Qed.

(** X3.  [get_order_summary] counts the orders per status: the entry of a
    status is the number of recorded orders with that status (no entry
    when there is none, never an entry of zero), and the entry of
    ['filled'] is the size of [get_filled_orders]. *)
Theorem order_summary_counts st (s : pyval) :
  default 0%nat (get_order_summary st !! s)
  = size (filter (fun kv : pyval * order => status kv.2 = s) (orders st))
  /\ default 0%nat (get_order_summary st !! PStr "filled") = size (get_filled_orders st)
  /\ get_order_summary st !! s <> Some 0%nat.
Proof.
  unfold get_order_summary, get_filled_orders. split; [|split].
  - apply summary_counts.
  - apply summary_counts.
  - apply (map_fold_weak_ind (fun (summary : gmap pyval nat) (m : gmap pyval order) =>
             summary !! s <> Some 0%nat)).
    + rewrite lookup_empty. discriminate.
    + intros i ord m' summary _ IH. cbn zeta.
      rewrite lookup_insert. case_decide; [|exact IH].
      intros [= Hzero]. lia.
Qed.

End order_views.

(* ===================================================================== *)
(** * Order state: what one update writes *)
(* ===================================================================== *)

Section order_updates.
Import Py state.

Implicit Types (st : AccountDataState) (order_data : gmap string pyval).

Lemma update_order_lookup order_data now1 now2 st (i : pyval) :
  orders (update_order order_data now1 now2 st) !! i
  = if truthy (get order_data "orderId") && bool_decide (get order_data "orderId" = i)
    then Some (order_of_event (get order_data "orderId") order_data now1)
    else orders st !! i.
Proof.
  unfold update_order.
  destruct (truthy (get order_data "orderId")); cbn [negb andb orders]; [|reflexivity].
  rewrite lookup_insert. case_decide as H.
  - rewrite bool_decide_eq_true_2 by exact H. reflexivity.
  - rewrite bool_decide_eq_false_2 by exact H. reflexivity.
Qed.

Lemma last_last_n {A} (n : nat) (l : list A) (e : A) :
  (0 < n)%nat -> last (last_n n (l ++ [e])) = Some e.
Proof.
  intros Hn. unfold last_n. rewrite length_app. cbn [length].
  rewrite drop_app_le by lia. apply last_snoc.
Qed.

(** X4.  An update with a non-empty order id makes the history end with
    the transition it applied: the entry's previous status is the status
    the order had (['unknown'] for an order seen for the first time), its
    new status is the event's; and the set of recorded ids grows by
    exactly that id. *)
Theorem update_order_records_transition order_data now1 now2 st :
  truthy (get order_data "orderId") = true ->
  let order_id := get order_data "orderId" in
  let st' := update_order order_data now1 now2 st in
  exists entry,
    last (order_history st') = Some entry
    /\ h_orderId entry = order_id
    /\ h_previousStatus entry
       = match get_order st order_id with
         | Some ord => status ord
         | None => PStr "unknown"
         end
    /\ h_newStatus entry = get order_data "status"
    /\ dom (orders st') = {[order_id]} ∪ dom (orders st).
Proof.
  intros Hid order_id st'. subst order_id st'.
  exists (history_entry_of (get order_data "orderId")
            (previous_status_of st (get order_data "orderId")) order_data now2).
  split; [|repeat split].
  - rewrite update_order_history, Hid. apply last_last_n. unfold HISTORY_LIMIT. lia.
  - unfold update_order. rewrite Hid. cbn [negb orders]. apply dom_insert_L.
Qed.

Lemma update_order_records_transition_witness :
  exists entry,
    last (order_history (apply_update scenario.filled_A1 scenario.late_submitted_A1))
    = Some entry
    /\ h_orderId entry = PStr "A1"
    /\ h_previousStatus entry = PStr "filled"
    /\ h_newStatus entry = PStr "submitted"
    /\ dom (orders (apply_update scenario.filled_A1 scenario.late_submitted_A1))
       = {[PStr "A1"]} ∪ dom (orders scenario.filled_A1).
Proof.
  exact (update_order_records_transition
           (u_data scenario.late_submitted_A1) _ _ scenario.filled_A1 eq_refl).
Defined.

(** X22.  Two updates for different orders commute on the order map, so
    events of different orders may arrive in either order; two updates for
    the same order do not merge: the map after both is the map after the
    later one alone, every field of the earlier event being lost. *)
Theorem update_order_commutes_last_wins
    (d1 d2 : gmap string pyval) (n1 n1' n2 n2' : string) st :
  truthy (get d1 "orderId") = true -> truthy (get d2 "orderId") = true ->
  (get d1 "orderId" <> get d2 "orderId" ->
   orders (update_order d2 n2 n2' (update_order d1 n1 n1' st))
   = orders (update_order d1 n1 n1' (update_order d2 n2 n2' st)))
  /\ (get d1 "orderId" = get d2 "orderId" ->
      orders (update_order d2 n2 n2' (update_order d1 n1 n1' st))
      = orders (update_order d2 n2 n2' st)).
Proof.
  intros H1 H2. split; intros H; apply map_eq; intros i;
    rewrite !update_order_lookup, H1, H2; cbn [andb].
  - repeat case_bool_decide; try reflexivity. congruence.
  - repeat case_bool_decide; try reflexivity. congruence.
Qed.

Lemma update_order_commutes_last_wins_witness :
  orders (apply_update scenario.filled_A1 scenario.late_submitted_A1)
  = orders (apply_update state.init scenario.late_submitted_A1).
Proof.
  refine (proj2 (update_order_commutes_last_wins
                   (u_data (scenario.order_event "A1" "filled" 1))
                   (u_data scenario.late_submitted_A1) _ _ _ _ state.init
                   eq_refl eq_refl) eq_refl).
Defined.

End order_updates.

(* ===================================================================== *)
(** * Price store *)
(* ===================================================================== *)

Section price_store.
Import Py market_data pricing spec.

Implicit Types (st : MarketDataState).

(** X5.  [update_price] overwrites both sides of a symbol the store
    already has and reads back through [get_price]; a symbol the store
    does not have is ignored; other symbols are untouched, and the set of
    symbols never changes. *)
Theorem update_price_lookup st (symbol : string) (b a : float) :
  (is_Some (get_price st symbol) ->
   get_price (update_price symbol b a st) symbol = Some (PriceData (Some b) (Some a)))
  /\ (get_price st symbol = None -> update_price symbol b a st = st)
  /\ (forall other, other <> symbol ->
        get_price (update_price symbol b a st) other = get_price st other)
  /\ dom (prices (update_price symbol b a st)) = dom (prices st).
Proof.
  unfold get_price, update_price.
  destruct (prices st !! symbol) as [pd|] eqn:E; cbn [prices].
  - split; [|split; [|split]].
    + intros _. apply lookup_insert_eq.
    + discriminate.
    + intros other Hne. apply lookup_insert_ne. congruence.
    + rewrite dom_insert_L. apply elem_of_dom_2 in E. set_solver.
  - split; [|split; [|split]]; try reflexivity.
    intros [x Hx]. discriminate.
Qed.

Lemma has_data_spec st (symbols : list string) :
  has_data st symbols = true
  <-> forall symbol, symbol ∈ symbols -> is_Some (both_sides st symbol).
Proof.
  induction symbols as [|s rest IH]; cbn [has_data].
  - split; [|reflexivity]. intros _ symbol Hin. inversion Hin.
  - unfold both_sides in *.
    destruct (prices st !! s) as [[[b|] [a|]]|] eqn:E; cbn [bid ask].
    + rewrite IH. split.
      * intros H symbol Hin. apply elem_of_cons in Hin as [->|Hin]; [|auto].
        rewrite E. eauto.
      * intros H symbol Hin. apply H. right. exact Hin.
    + split; [discriminate|]. intros H.
      destruct (H s ltac:(left)) as [x Hx]. rewrite E in Hx. discriminate.
    + split; [discriminate|]. intros H.
      destruct (H s ltac:(left)) as [x Hx]. rewrite E in Hx. discriminate.
    + split; [discriminate|]. intros H.
      destruct (H s ltac:(left)) as [x Hx]. rewrite E in Hx. discriminate.
    + split; [discriminate|]. intros H.
      destruct (H s ltac:(left)) as [x Hx]. rewrite E in Hx. discriminate.
Qed.


(** X6.  [has_data] is true exactly when every symbol of the list has an
    entry with both sides present; in particular it is true of the empty
    list, and false as soon as one symbol is unknown or one-sided. *)
Theorem has_data_iff st (symbols : list string) :
  has_data st symbols = true
  <-> forall symbol, symbol ∈ symbols -> is_Some (both_sides st symbol).
Proof. apply has_data_spec. Qed.

Lemma both_sides_update st (symbol other : string) (b a : float) :
  is_Some (both_sides st other) ->
  is_Some (both_sides (update_price symbol b a st) other).
Proof.
  unfold both_sides, update_price. intros H.
  destruct (prices st !! symbol) as [pd|] eqn:E; [|exact H]. cbn [prices].
  rewrite lookup_insert. case_decide; [eauto|exact H].
Qed.

(** X7.  Price data, once complete, stays complete: no tick can make
    [has_data] false again, because [update_price] only ever writes two
    present sides. *)
Theorem update_price_keeps_data st (symbols : list string) (symbol : string) (b a : float) :
  has_data st symbols = true ->
  has_data (update_price symbol b a st) symbols = true.
Proof.
  rewrite !has_data_spec. intros H other Hin. apply both_sides_update, H, Hin.
Qed.

Lemma update_price_keeps_data_witness :
  has_data (update_price "BTCUSDT" 61000 61010 scenario.spec_prices)
           ["PAXGUSDT"; "BTCUSDT"] = true.
Proof.
  apply (update_price_keeps_data scenario.spec_prices).
  vm_compute. reflexivity.
Defined.

(** X8.  The guard of [get_fair_price] protects every subscript and
    addition below it: the only exception the function can raise is the
    [ZeroDivisionError] of the final division.  [is_ready] therefore
    answers [False] exactly when a side is missing, and otherwise either
    answers [True] or raises that same error. *)
Theorem get_fair_price_only_zero_division st :
  ((exists p, get_fair_price st = Ok p) \/ get_fair_price st = Raise ZeroDivisionError)
  /\ (is_ready st = Ok false
      <-> has_data st ["PAXGUSDT"; "BTCUSDT"] = false)
  /\ (is_ready st = Ok true \/ is_ready st = Ok false
      \/ is_ready st = Raise ZeroDivisionError).
Proof.
  unfold is_ready. rewrite get_fair_price_unfold, has_data_both_sides.
  destruct (both_sides st "PAXGUSDT") as [[pb pa]|];
    [destruct (both_sides st "BTCUSDT") as [[bb ba]|];
     [destruct (((bb + ba) / 2) =? 0)%float|]|]; cbn.
  - split; [auto|]. split; [|auto]. split; discriminate.
  - split; [eauto|]. split; [|auto]. split; discriminate.
  - split; [eauto|]. split; [|auto]. split; reflexivity.
  - split; [eauto|]. split; [|auto]. split; reflexivity.
Qed.

End price_store.

(* ===================================================================== *)
(** * Coordination: what a cycle keeps, and what it sends *)
(* ===================================================================== *)

(** Any property of the order state that the three writers keep
    ([update_order], the cancel mark, the cleanup loop) is kept by
    everything the tasks do, and so by a whole quoting cycle whatever runs
    during its suspensions. *)
Section account_invariant.
Import Py state market_maker spec.

Variable P : AccountDataState -> Prop.
Hypothesis P_update : forall order_data now1 now2 st,
  P st -> P (update_order order_data now1 now2 st).
Hypothesis P_mark : forall order_id st, P st -> P (mark_cancelled order_id st).
Hypothesis P_cleanup : forall st, P st -> P (cancel_active_orders st).

Lemma run_task_preserves mm a :
  P (account_state mm) -> P (account_state (run_task mm a)).
Proof.
  intros H. destruct a as [u|symbol b a|r now|r]; cbn [run_task].
  - cbn. apply P_update, H.
  - exact H.
  - rewrite account_state_update_position. exact H.
  - destruct r; cbn; [apply P_cleanup|]; exact H.
Qed.

Lemma run_tasks_preserves acts : forall mm,
  P (account_state mm) -> P (account_state (run_tasks acts mm)).
Proof.
  induction acts as [|a acts IH]; intros mm H; [exact H|].
  cbn. apply IH, run_task_preserves, H.
Qed.

Lemma process_cancellations_preserves results : forall st,
  P st -> P (process_cancellations results st).
Proof.
  induction results as [|[[ot id] res] results IH]; intros st H; [exact H|].
  cbn. apply IH. destruct res; [apply P_mark|]; exact H.
Qed.

Lemma cancel_phase_preserves o mm :
  P (account_state mm) -> P (account_state (cancel_phase o mm).1).
Proof.
  intros H. unfold cancel_phase. destruct (orders_to_cancel mm); [exact H|].
  cbn [fst with_account_state account_state].
  apply process_cancellations_preserves, run_tasks_preserves, H.
Qed.

Lemma record_placements_preserves o bid_result ask_result mm :
  P (account_state mm) ->
  P (account_state (record_placements o bid_result ask_result mm).1).
Proof.
  intros H. unfold record_placements.
  destruct (order_id_of bid_result) as [[b bd]|e]; [|exact H].
  destruct (order_id_of ask_result) as [[a ad]|e];
    cbn [fst with_account_state with_current_orders account_state].
  - apply P_update, P_update, H.
  - apply P_update, H.
Qed.

Lemma place_phase_preserves o bid_price ask_price mm :
  P (account_state mm) ->
  P (account_state (place_phase o bid_price ask_price mm).1.1).
Proof.
  intros H. unfold place_phase.
  destruct (bid_reply o) as [b|e]; [|apply run_tasks_preserves, H].
  destruct (ask_reply o) as [a|e]; [|apply run_tasks_preserves, H].
  pose proof (record_placements_preserves o b a (run_tasks (during_place o) mm)
                (run_tasks_preserves _ _ H)) as H'.
  destruct (record_placements o b a (run_tasks (during_place o) mm)). exact H'.
Qed.

Lemma quote_market_preserves o mm :
  P (account_state mm) -> P (account_state (final (quote_market o mm))).
Proof.
  intros H. unfold quote_market.
  destruct (pricing.get_fair_price (market_state mm)) as [[fair|]|e]; try exact H.
  destruct (negb (float_truthy fair)); [exact H|].
  destruct (pricing.calculate_bid_ask_prices fair) as [[bp ap]|e]; [|exact H].
  pose proof (cancel_phase_preserves o mm H) as H1.
  destruct (cancel_phase o mm) as [mm1 cancels]. cbn [fst] in H1.
  pose proof (place_phase_preserves o bp ap mm1 H1) as H2.
  destruct (place_phase o bp ap mm1) as [[mm2 places] e]. exact H2.
Qed.

End account_invariant.

Section cycle_invariants.
Import Py state market_maker spec.

Implicit Types (st : AccountDataState) (mm : MarketMaker) (o : cycle_oracle).

Lemma cancel_active_history st :
  order_history (cancel_active_orders st) = order_history st.
Proof. reflexivity. Qed.

Lemma mark_cancelled_history order_id st :
  order_history (mark_cancelled order_id st) = order_history st.
Proof. unfold mark_cancelled. destruct (get_order st order_id); reflexivity. Qed.

Lemma update_order_history_bound order_data now1 now2 st :
  (length (order_history st) <= 1000)%nat ->
  (length (order_history (update_order order_data now1 now2 st)) <= 1000)%nat.
Proof.
  intros H. rewrite update_order_history.
  destruct (truthy (get order_data "orderId")); [|exact H].
  apply (length_last_n HISTORY_LIMIT).
Qed.

(** X9.  No order the local state knows is ever forgotten by a quoting
    cycle: whatever the gateway replies and whatever the private feed, the
    position poll or the emergency cleanup do during its two suspensions,
    an order id recorded before the cycle is recorded after it. *)
Theorem quote_market_never_forgets o mm (order_id : pyval) :
  tracked (account_state mm) order_id ->
  tracked (account_state (final (quote_market o mm))) order_id.
Proof.
  apply (quote_market_preserves (fun st => tracked st order_id)).
  - intros. apply update_order_tracked. assumption.
  - intros. apply mark_cancelled_tracked. assumption.
  - intros. apply cancel_active_tracked. assumption.
Qed.

Lemma quote_market_never_forgets_witness :
  tracked
    (account_state
       (final (quote_market
                 (scenario.cleanup_while_placing (scenario.placed "B1") (scenario.placed "S1"))
                 scenario.live_A1)))
    (PStr "A1").
Proof.
  apply quote_market_never_forgets. vm_compute. eauto.
Defined.

(** X10.  The bound of the history survives a quoting cycle under every
    interleaving: if the history has at most 1000 entries before the
    cycle, it has at most 1000 after it, although the cycle and the tasks
    running during its suspensions may append many entries. *)
Theorem quote_market_keeps_history_bound o mm :
  (length (order_history (account_state mm)) <= 1000)%nat ->
  (length (order_history (account_state (final (quote_market o mm)))) <= 1000)%nat.
Proof.
  apply (quote_market_preserves (fun st => (length (order_history st) <= 1000)%nat)).
  - intros. apply update_order_history_bound. assumption.
  - intros. rewrite mark_cancelled_history. assumption.
  - intros. rewrite cancel_active_history. assumption.
Qed.

Lemma quote_market_keeps_history_bound_witness :
  (length (order_history
             (account_state
                (final (quote_market
                          (scenario.quiet_cycle (scenario.placed "B1") (scenario.placed "S1"))
                          scenario.live_A1)))) <= 1000)%nat.
Proof.
  apply quote_market_keeps_history_bound. vm_compute. lia.
Defined.

End cycle_invariants.

Section cycle_outcomes.
Import Py state market_maker spec.

Implicit Types (st : AccountDataState) (mm : MarketMaker) (o : cycle_oracle).

(** X11.  Without a usable fair price the cycle does nothing at all: when
    [get_fair_price] returns [None] or a zero, or raises, no gateway call
    is issued and the coordinator's state (slots included) is untouched. *)
Theorem quote_market_skips_without_price o mm :
  (forall fair_price,
     pricing.get_fair_price (market_state mm) = Ok (Some fair_price) ->
     float_truthy fair_price = false) ->
  final (quote_market o mm) = mm
  /\ calls (quote_market o mm) = []
  /\ caught (quote_market o mm)
     = match pricing.get_fair_price (market_state mm) with
       | Raise e => Some e
       | Ok _ => None
       end.
Proof.
  intros H. unfold quote_market.
  destruct (pricing.get_fair_price (market_state mm)) as [[fair|]|e]; auto.
  rewrite (H fair eq_refl). auto.
Qed.

Lemma quote_market_skips_without_price_witness :
  final (quote_market (scenario.quiet_cycle (scenario.placed "B1") (scenario.placed "S1"))
           market_maker.init) = market_maker.init
  /\ calls (quote_market (scenario.quiet_cycle (scenario.placed "B1") (scenario.placed "S1"))
             market_maker.init) = [].
Proof.
  destruct (quote_market_skips_without_price
              (scenario.quiet_cycle (scenario.placed "B1") (scenario.placed "S1"))
              market_maker.init) as (H1 & H2 & _).
  - intros fair_price H. vm_compute in H. discriminate.
  - split; assumption.
Defined.

Lemma bid_event_fields (i : pyval) (d : place_data) (ts : string) :
  get (bid_event i d ts) "orderId" = i
  /\ get (bid_event i d ts) "status" = PStr "pendingsubmit".
Proof. split; reflexivity. Qed.

Lemma ask_event_fields (i : pyval) (d : place_data) (ts : string) :
  get (ask_event i d ts) "orderId" = i
  /\ get (ask_event i d ts) "status" = PStr "pendingsubmit".
Proof. split; reflexivity. Qed.

Lemma registered_status order_data now1 now2 st :
  truthy (get order_data "orderId") = true ->
  get_order_status (update_order order_data now1 now2 st) (get order_data "orderId")
  = Some (get order_data "status").
Proof.
  intros Hid. unfold get_order_status. rewrite update_order_lookup, Hid.
  rewrite bool_decide_eq_true_2 by reflexivity. reflexivity.
Qed.

Lemma registered_status_kept order_data now1 now2 st (i : pyval) (s : pyval) :
  get_order_status st i = Some s ->
  get order_data "status" = s ->
  get_order_status (update_order order_data now1 now2 st) i = Some s.
Proof.
  intros Hst Hs. unfold get_order_status in *. rewrite update_order_lookup.
  destruct (truthy (get order_data "orderId") && bool_decide (get order_data "orderId" = i));
    [cbn; congruence|exact Hst].
Qed.

Lemma pendingsubmit_active st (i : pyval) :
  get_order_status st i = Some (PStr "pendingsubmit") -> is_order_active st i = true.
Proof.
  unfold get_order_status, is_order_active.
  destruct (orders st !! i) as [ord|]; [|discriminate].
  cbn. intros [= ->]. reflexivity.
Qed.

Lemma recorded_state o mm fair_price bid_price ask_price
    bid_result ask_result (b a : pyval) (bd ad : place_data) :
  pricing.get_fair_price (market_state mm) = Ok (Some fair_price) ->
  float_truthy fair_price = true ->
  pricing.calculate_bid_ask_prices fair_price = Ok (bid_price, ask_price) ->
  bid_reply o = Ok bid_result -> ask_reply o = Ok ask_result ->
  order_id_of bid_result = Ok (b, bd) -> order_id_of ask_result = Ok (a, ad) ->
  truthy b = true -> truthy a = true ->
  let r := quote_market o mm in
  current_orders (final r) = {| bid_id := b; ask_id := a |}
  /\ get_order_status (account_state (final r)) b = Some (PStr "pendingsubmit")
  /\ get_order_status (account_state (final r)) a = Some (PStr "pendingsubmit")
  /\ is_order_active (account_state (final r)) b = true
  /\ is_order_active (account_state (final r)) a = true
  /\ caught r = None.
Proof.
  intros Hfair Htruthy Hquote Hbid Hask Hb Ha Hbt Hat r. subst r.
  unfold quote_market. rewrite Hfair, Htruthy, Hquote. cbn [negb].
  destruct (cancel_phase o mm) as [mm1 cancels].
  unfold place_phase. rewrite Hbid, Hask.
  unfold record_placements. rewrite Hb, Ha.
  cbn [final caught current_orders account_state with_account_state
       with_current_orders bid_id ask_id].
  set (st1 := account_state (run_tasks (during_place o) mm1)).
  destruct (bid_event_fields b bd (bid_timestamp o)) as [Hbi Hbs].
  destruct (ask_event_fields a ad (ask_timestamp o)) as [Hai Has].
  assert (Hsb : get_order_status
                  (update_order (ask_event a ad (ask_timestamp o)) (ask_now1 o) (ask_now2 o)
                     (update_order (bid_event b bd (bid_timestamp o)) (bid_now1 o) (bid_now2 o)
                        st1)) b = Some (PStr "pendingsubmit")).
  { apply registered_status_kept; [|exact Has].
    rewrite <- Hbs. rewrite <- Hbi at 3. apply registered_status.
    rewrite Hbi. exact Hbt. }
  assert (Hsa : get_order_status
                  (update_order (ask_event a ad (ask_timestamp o)) (ask_now1 o) (ask_now2 o)
                     (update_order (bid_event b bd (bid_timestamp o)) (bid_now1 o) (bid_now2 o)
                        st1)) a = Some (PStr "pendingsubmit")).
  { rewrite <- Has. rewrite <- Hai at 3. apply registered_status.
    rewrite Hai. exact Hat. }
  repeat split; auto using pendingsubmit_active.
Qed.


(** X12.  When both placements return and each reply carries a non-empty
    order id, the cycle ends with exactly those two ids in the bid and ask
    slots, both registered with status ['pendingsubmit'] and therefore
    active, and with no exception caught; this holds whatever ran during
    the suspensions, since the recording comes after them. *)
Theorem placements_are_recorded o mm fair_price bid_price ask_price
    bid_result ask_result (b a : pyval) (bd ad : place_data) :
  pricing.get_fair_price (market_state mm) = Ok (Some fair_price) ->
  float_truthy fair_price = true ->
  pricing.calculate_bid_ask_prices fair_price = Ok (bid_price, ask_price) ->
  bid_reply o = Ok bid_result -> ask_reply o = Ok ask_result ->
  order_id_of bid_result = Ok (b, bd) -> order_id_of ask_result = Ok (a, ad) ->
  truthy b = true -> truthy a = true ->
  let r := quote_market o mm in
  current_orders (final r) = {| bid_id := b; ask_id := a |}
  /\ get_order_status (account_state (final r)) b = Some (PStr "pendingsubmit")
  /\ get_order_status (account_state (final r)) a = Some (PStr "pendingsubmit")
  /\ is_order_active (account_state (final r)) b = true
  /\ is_order_active (account_state (final r)) a = true
  /\ caught r = None.
Proof.
  intros. eapply recorded_state; eassumption.
Qed.

Lemma placements_are_recorded_witness :
  current_orders
    (final (quote_market
              (scenario.cleanup_while_placing (scenario.placed "B1") (scenario.placed "S1"))
              scenario.live_A1))
  = {| bid_id := PStr "B1"; ask_id := PStr "S1" |}.
Proof.
  refine (proj1 (placements_are_recorded
            (scenario.cleanup_while_placing (scenario.placed "B1") (scenario.placed "S1"))
            scenario.live_A1 scenario.spec_fair_price
            scenario.spec_quotes.1 scenario.spec_quotes.2 _ _ (PStr "B1") (PStr "S1") _ _
            _ _ _ eq_refl eq_refl eq_refl eq_refl eq_refl eq_refl)).
  - vm_compute. reflexivity.
  - vm_compute. reflexivity.
  - vm_compute. reflexivity.
Defined.



End cycle_outcomes.

Section cycle_failures.
Import Py state market_maker spec.

Implicit Types (st : AccountDataState) (mm : MarketMaker) (o : cycle_oracle).

(** X13.  The two replies are read one after the other, the bid first.  If
    the bid reply lacks its order id, nothing is recorded, not even an ask
    id that did arrive.  If the bid reply has a non-empty id and the ask
    reply lacks its own, the bid is kept: it is in the bid slot and
    registered as ['pendingsubmit'], while the ask slot is left as it was;
    the [KeyError] is the exception the cycle catches. *)
Theorem ask_reply_without_id_keeps_bid o bid_price ask_price mm bid_result ask_result :
  bid_reply o = Ok bid_result -> ask_reply o = Ok ask_result ->
  let mm1 := run_tasks (during_place o) mm in
  let r := place_phase o bid_price ask_price mm in
  (forall e, order_id_of bid_result = Raise e -> r.1.1 = mm1 /\ r.2 = Some e)
  /\ (forall b bd e,
        order_id_of bid_result = Ok (b, bd) -> truthy b = true ->
        order_id_of ask_result = Raise e ->
        bid_id (current_orders r.1.1) = b
        /\ ask_id (current_orders r.1.1) = ask_id (current_orders mm1)
        /\ get_order_status (account_state r.1.1) b = Some (PStr "pendingsubmit")
        /\ r.2 = Some e).
Proof.
  intros Hbid Hask mm1 r. subst r. unfold place_phase. rewrite Hbid, Hask.
  fold mm1. unfold record_placements. split.
  - intros e He. rewrite He. auto.
  - intros b bd e Hb Hbt He. rewrite Hb, He.
    cbn [fst snd current_orders account_state with_account_state
         with_current_orders bid_id ask_id].
    repeat split.
    destruct (bid_event_fields b bd (bid_timestamp o)) as [Hbi Hbs].
    rewrite <- Hbs. rewrite <- Hbi at 3. apply registered_status.
    rewrite Hbi. exact Hbt.
Qed.

Lemma ask_reply_without_id_keeps_bid_witness :
  bid_id (current_orders
            (place_phase
               (scenario.quiet_cycle (scenario.placed "B1") (Ok {| data := None |}))
               scenario.spec_quotes.1 scenario.spec_quotes.2 scenario.fresh).1.1)
  = PStr "B1".
Proof.
  refine (proj1 (proj2 (ask_reply_without_id_keeps_bid
            (scenario.quiet_cycle (scenario.placed "B1") (Ok {| data := None |}))
            scenario.spec_quotes.1 scenario.spec_quotes.2 scenario.fresh _ _
            eq_refl eq_refl) (PStr "B1") _ (KeyError "data") eq_refl eq_refl eq_refl)).
Defined.

Lemma process_cancellations_all_raised (l : list (string * pyval))
    (f : string * pyval -> result (gmap string pyval)) st :
  (forall p, p ∈ l -> exists e, f p = Raise e) ->
  process_cancellations (zip l (map f l)) st = st.
Proof.
  induction l as [|p l IH]; intros H; [reflexivity|].
  cbn. destruct (H p ltac:(left)) as [e ->].
  apply IH. intros q Hq. apply H. right. exact Hq.
Qed.

Lemma with_account_state_same mm : with_account_state (account_state mm) mm = mm.
Proof. destruct mm. reflexivity. Qed.

(** X14.  Cancellations that fail change nothing locally: when every
    [cancel_order] call of the phase raises, the phase leaves the state the
    other tasks left (the untouched state, when none ran), each order
    stays tracked with its status, and the cancel calls were still issued,
    one per active slot. *)
Theorem failed_cancellations_change_nothing o mm :
  (forall order_type order_id,
     (order_type, order_id) ∈ orders_to_cancel mm ->
     exists e, cancel_reply o order_type order_id = Raise e) ->
  (cancel_phase o mm).1
  = match orders_to_cancel mm with
    | [] => mm
    | _ :: _ => run_tasks (during_cancel o) mm
    end
  /\ (during_cancel o = [] -> (cancel_phase o mm).1 = mm)
  /\ (cancel_phase o mm).2 = map (fun p => cancel_order p.2) (orders_to_cancel mm).
Proof.
  intros H.
  assert (Hphase : (cancel_phase o mm).1
                   = match orders_to_cancel mm with
                     | [] => mm
                     | _ :: _ => run_tasks (during_cancel o) mm
                     end).
  { unfold cancel_phase. destruct (orders_to_cancel mm) as [|p l] eqn:E; [reflexivity|].
    cbn [fst].
    rewrite (process_cancellations_all_raised (p :: l)
               (fun p => cancel_reply o p.1 p.2)).
    - apply with_account_state_same.
    - intros [ot id] Hin. apply (H ot id). exact Hin. }
  split; [exact Hphase|]. split.
  - intros Hquiet. rewrite Hphase, Hquiet. destruct (orders_to_cancel mm); reflexivity.
  - apply cancel_phase_calls.
Qed.

Lemma failed_cancellations_change_nothing_witness :
  (cancel_phase scenario.cancels_fail scenario.live_A1).1 = scenario.live_A1.
Proof.
  refine (proj1 (proj2 (failed_cancellations_change_nothing
                          scenario.cancels_fail scenario.live_A1 _)) eq_refl).
  intros order_type order_id _. exists scenario.request_failed. reflexivity.
Defined.

Lemma length_orders_to_cancel mm : (length (orders_to_cancel mm) <= 2)%nat.
Proof.
  unfold orders_to_cancel.
  etransitivity; [apply length_filter|]. reflexivity.
Qed.

Lemma quote_market_calls_cases o mm :
  calls (quote_market o mm) = []
  \/ exists bid_price ask_price,
       calls (quote_market o mm)
       = (map (fun p => cancel_order p.2) (orders_to_cancel mm)
          ++ [place_order "buy" bid_price; place_order "sell" ask_price])%list.
Proof.
  destruct (pricing.get_fair_price (market_state mm)) as [[fair|]|e] eqn:Hfair;
    try (left; unfold quote_market; rewrite Hfair; reflexivity).
  destruct (float_truthy fair) eqn:Htruthy;
    [|left; unfold quote_market; rewrite Hfair, Htruthy; reflexivity].
  destruct (pricing.calculate_bid_ask_prices fair) as [[bp ap]|e] eqn:Hquote;
    [|left; unfold quote_market; rewrite Hfair, Htruthy, Hquote; reflexivity].
  right. exists bp, ap. apply (quote_market_calls o mm fair bp ap Hfair Htruthy Hquote).
Qed.

(** X15.  What a cycle can send.  Every gateway call of a cycle is either
    the cancellation of a non-empty id that one of the two slots held and
    that the local state held active when the cycle started, or a
    placement with side ['buy'] or ['sell']; a cycle never calls
    cancel-all nor the positions endpoint, and issues at most four
    calls. *)
Theorem quote_market_call_shape o mm :
  (forall c, c ∈ calls (quote_market o mm) ->
     (exists order_type order_id,
        c = cancel_order order_id
        /\ (order_type, order_id) ∈ items (current_orders mm)
        /\ truthy order_id = true
        /\ is_order_active (account_state mm) order_id = true)
     \/ (exists price, c = place_order "buy" price \/ c = place_order "sell" price))
  /\ (cancel_all_orders ∉ calls (quote_market o mm))
  /\ (get_positions ∉ calls (quote_market o mm))
  /\ (length (calls (quote_market o mm)) <= 4)%nat.
Proof.
  assert (Hshape : forall c, c ∈ calls (quote_market o mm) ->
     (exists order_type order_id,
        c = cancel_order order_id
        /\ (order_type, order_id) ∈ items (current_orders mm)
        /\ truthy order_id = true
        /\ is_order_active (account_state mm) order_id = true)
     \/ (exists price, c = place_order "buy" price \/ c = place_order "sell" price)).
  { intros c Hin.
    destruct (quote_market_calls_cases o mm) as [Hnil|(bp & ap & Hcalls)].
    - rewrite Hnil in Hin. inversion Hin.
    - rewrite Hcalls in Hin. apply elem_of_app in Hin as [Hin|Hin].
      + left. apply list_elem_of_fmap in Hin as ([ot id] & -> & Hin).
        apply orders_to_cancel_spec in Hin. exists ot, id. cbn. tauto.
      + right. apply elem_of_cons in Hin as [->|Hin]; [eauto|].
        apply elem_of_cons in Hin as [->|Hin]; [eauto|]. inversion Hin. }
  split; [exact Hshape|]. split; [|split].
  - intros Hin. destruct (Hshape _ Hin) as [(ot & id & H & _)|(price & [H|H])];
      discriminate.
  - intros Hin. destruct (Hshape _ Hin) as [(ot & id & H & _)|(price & [H|H])];
      discriminate.
  - destruct (quote_market_calls_cases o mm) as [->|(bp & ap & ->)]; [cbn; lia|].
    rewrite length_app, length_map. cbn [length].
    pose proof (length_orders_to_cancel mm). lia.
Qed.

End cycle_failures.

(* ===================================================================== *)
(** * Emergency cleanup and position polling *)
(* ===================================================================== *)

Section cleanup_and_polling.
Import Py state market_maker spec.

Implicit Types (st : AccountDataState) (mm : MarketMaker).

Lemma cancel_active_inactive st (order_id : pyval) :
  is_order_active (cancel_active_orders st) order_id = false.
Proof.
  unfold is_order_active at 1. rewrite lookup_cancel_active.
  unfold is_order_active.
  destruct (orders st !! order_id) as [ord|]; [|reflexivity]. cbn.
  destruct (is_terminal (status ord)) eqn:E; cbn; [rewrite E|]; reflexivity.
Qed.

Lemma cancel_active_idempotent st :
  cancel_active_orders (cancel_active_orders st) = cancel_active_orders st.
Proof.
  transitivity {| orders := orders (cancel_active_orders st);
                  order_history := order_history (cancel_active_orders st) |};
    [|reflexivity].
  unfold cancel_active_orders at 1. f_equal.
  apply map_eq. intros i. rewrite map_lookup_imap.
  destruct (orders (cancel_active_orders st) !! i) as [ord|]; [|reflexivity].
  cbn. rewrite cancel_active_inactive. reflexivity.
Qed.

(** X16.  After a cleanup whose cancel-all call returned, the local state
    claims no live order: [is_order_active] is false for every id and the
    active view is empty.  The cleanup keeps every order id, writes no
    history entry for the statuses it changes, and running it again
    changes nothing. *)
Theorem cleanup_leaves_no_active_order (response response' : gmap string pyval) mm :
  let mm' := immediate_cleanup (Ok response) mm in
  (forall order_id, is_order_active (account_state mm') order_id = false)
  /\ get_active_orders (account_state mm') = ∅
  /\ dom (orders (account_state mm')) = dom (orders (account_state mm))
  /\ order_history (account_state mm') = order_history (account_state mm)
  /\ immediate_cleanup (Ok response') mm' = mm'.
Proof.
  cbn [immediate_cleanup with_account_state with_current_orders account_state].
  split; [|split; [|split; [|split]]].
  - intros order_id. apply cancel_active_inactive.
  - apply map_empty. intros i. apply map_lookup_filter_None. right.
    intros ord Hord Hact. cbn in Hact.
    pose proof (cancel_active_inactive (account_state mm) i) as Hin.
    unfold is_order_active in Hin. rewrite Hord, Hact in Hin. discriminate.
  - apply set_eq. intros i. rewrite !elem_of_dom. rewrite lookup_cancel_active.
    rewrite fmap_is_Some. reflexivity.
  - reflexivity.
  - cbn. rewrite cancel_active_idempotent. reflexivity.
Qed.


Lemma signed_total_app (l1 l2 : list position_leg) : forall total,
  signed_total (l1 ++ l2) total = (t ← signed_total l1 total; signed_total l2 t).
Proof.
  induction l1 as [|p l1 IH]; intros total; [reflexivity|].
  cbn [app signed_total]. destruct (leg_size p) as [sz|e]; [|reflexivity].
  cbn. apply IH.
Qed.

(** X17.  The signed sum over the legs of a positions reply: the legs are
    folded in order (so two replies compose), a leg whose side is neither
    ['long'] nor ['short'] contributes nothing, and a leg whose size does
    not convert to a float fails the whole sum, even when its side would
    have been ignored. *)
Theorem signed_total_legs (l1 l2 : list position_leg) (p : position_leg) (total : float) :
  signed_total (l1 ++ l2) total = (t ← signed_total l1 total; signed_total l2 t)
  /\ (forall sz, leg_size p = Ok sz ->
        leg_side p <> PStr "long" -> leg_side p <> PStr "short" ->
        signed_total (l1 ++ p :: l2) total = signed_total (l1 ++ l2) total)
  /\ (forall e, leg_size p = Raise e ->
        exists e', signed_total (l1 ++ p :: l2) total = Raise e').
Proof.
  split; [apply signed_total_app|]. split.
  - intros sz Hsz Hlong Hshort. rewrite !signed_total_app.
    destruct (signed_total l1 total) as [t|e]; [|reflexivity]. cbn.
    rewrite Hsz. cbn.
    rewrite bool_decide_eq_false_2 by exact Hlong.
    rewrite bool_decide_eq_false_2 by exact Hshort. reflexivity.
  - intros e He. rewrite signed_total_app.
    destruct (signed_total l1 total) as [t|e1]; cbn; [|eauto].
    rewrite He. cbn. eauto.
Qed.

(** A position poll writes nothing but the position snapshot: the
    orders, the quote slots and the prices are as before, and the call
    always returns normally.  When the request or any leg fails, not even
    the snapshot changes (no partial update) and exactly one warning is
    logged; when it succeeds, the snapshot holds the signed total, the
    number of filled orders and the time, and keeps its symbol. *)
Lemma update_position_frame (r : result (list position_leg)) (now : string) mm :
  let mm' := (_update_position r now mm).1.1 in
  (_update_position r now mm).2 = Ok tt
  /\ account_state mm' = account_state mm
  /\ current_orders mm' = current_orders mm
  /\ market_state mm' = market_state mm
  /\ match (positions ← r; signed_total positions 0%float) with
     | Raise e =>
         mm' = mm
         /\ (_update_position r now mm).1.2
            = [("WARNING", "Failed to update position: " +:+ str_of_exn e)]
     | Ok total =>
         current_position mm'
         = {| p_symbol := p_symbol (current_position mm);
              p_position := total;
              p_total_fills := size (get_filled_orders (account_state mm));
              p_last_updated := Some now |}
         /\ (_update_position r now mm).1.2 = []
     end.
Proof.
  unfold _update_position.
  destruct (positions ← r; signed_total positions 0%float) as [total|e]; cbn; auto 10.
Qed.

End cleanup_and_polling.

(* ===================================================================== *)
(** * Bootstrap, private feed dispatch, quotes endpoint *)
(* ===================================================================== *)

Section bootstrap.
Import Py state orders spec.

Implicit Types (st : AccountDataState) (om : OrderManager).

Lemma order_data_of_rest_fields (order : gmap string pyval) :
  get (order_data_of_rest order) "orderId" = get order "id"
  /\ get (order_data_of_rest order) "status" = get order "status"
  /\ get (order_data_of_rest order) "remainingQty" = get order "qty"
  /\ get (order_data_of_rest order) "executedQty" = PStr "0.00".
Proof. repeat split; reflexivity. Qed.

Lemma load_other st (ro : rest_order) (i : pyval) :
  get (ro_order ro) "id" <> i -> orders (load st ro) !! i = orders st !! i.
Proof.
  intros Hne. unfold load. rewrite update_order_lookup.
  destruct (order_data_of_rest_fields (ro_order ro)) as (-> & _).
  rewrite (bool_decide_eq_false_2 _ Hne), andb_false_r. reflexivity.
Qed.

Lemma foldl_load_other (l : list rest_order) (i : pyval) : forall st,
  (forall ro, ro ∈ l -> get (ro_order ro) "id" <> i) ->
  orders (foldl load st l) !! i = orders st !! i.
Proof.
  induction l as [|ro l IH]; intros st H; [reflexivity|].
  cbn. rewrite IH by (intros ro' Hin; apply H; right; exact Hin).
  apply load_other, H. left.
Qed.

(** X18.  The bootstrap loads the venue's orders: after [initialize] on a
    reply that lists an order with a non-empty id (the last one listed
    with that id), the order is recorded under that id with the status and
    quantity of the reply and an executed quantity of ['0.00']; it counts
    as active exactly when the reported status is not terminal, and the
    manager is marked initialized. *)
Theorem initialize_loads_orders (l1 l2 : list rest_order) (ro : rest_order) om :
  truthy (get (ro_order ro) "id") = true ->
  (forall ro', ro' ∈ l2 -> get (ro_order ro') "id" <> get (ro_order ro) "id") ->
  let order_id := get (ro_order ro) "id" in
  let om' := (initialize (Ok (l1 ++ ro :: l2)%list) om).1 in
  (initialize (Ok (l1 ++ ro :: l2)%list) om).2 = Ok tt
  /\ is_initialized om' = true
  /\ (exists ord,
        get_order (om_state om') order_id = Some ord
        /\ orderId ord = order_id
        /\ status ord = get (ro_order ro) "status"
        /\ remainingQty ord = get (ro_order ro) "qty"
        /\ executedQty ord = PStr "0.00")
  /\ is_order_active (om_state om') order_id
     = negb (is_terminal (get (ro_order ro) "status")).
Proof.
  intros Hid Hlast order_id om'. subst order_id om'.
  cbn [initialize fst snd om_state is_initialized].
  assert (Hlookup :
    orders (foldl load (om_state om) (l1 ++ ro :: l2)) !! get (ro_order ro) "id"
    = Some (order_of_event (get (ro_order ro) "id")
              (order_data_of_rest (ro_order ro)) (ro_now1 ro))).
  { rewrite foldl_app. cbn [foldl]. rewrite foldl_load_other by exact Hlast.
    unfold load. rewrite update_order_lookup.
    destruct (order_data_of_rest_fields (ro_order ro)) as (-> & _).
    rewrite Hid, bool_decide_eq_true_2 by reflexivity. reflexivity. }
  split; [reflexivity|]. split; [reflexivity|]. split.
  - eexists. unfold get_order. split; [exact Hlookup|]. repeat split.
  - unfold is_order_active. rewrite Hlookup. reflexivity.
Qed.

Lemma initialize_loads_orders_witness :
  is_order_active
    (om_state (initialize
                 (Ok ([] ++
                      RestOrder (list_to_map [("id", PStr "R1"); ("status", PStr "submitted");
                                              ("qty", PStr "1.00")]) "t" "t" :: [])%list)
                 {| om_state := state.init; is_initialized := false |}).1)
    (PStr "R1")
  = true.
Proof.
  refine (proj2 (proj2 (proj2 (initialize_loads_orders [] []
            (RestOrder (list_to_map [("id", PStr "R1"); ("status", PStr "submitted");
                                     ("qty", PStr "1.00")]) "t" "t")
            {| om_state := state.init; is_initialized := false |} eq_refl _)))).
  intros ro' Hin. inversion Hin.
Defined.

End bootstrap.

Section private_feed.
Import Py state roxom_ws.

Implicit Types (c : client) (message : gmap string json).

Lemma update_order_no_id order_data now1 now2 (st : AccountDataState) :
  truthy (get order_data "orderId") = false -> update_order order_data now1 now2 st = st.
Proof. intros H. unfold update_order. rewrite H. reflexivity. Qed.

Lemma client_eta c :
  {| account_state := account_state c; connection_id := connection_id c;
     is_authenticated := is_authenticated c |} = c.
Proof. destruct c. reflexivity. Qed.


End private_feed.

Section quotes_endpoint.
Import Py market_maker dashboard.

(** X20.  The quotes endpoint answers 503 when there is no fair price or
    the fair price is zero, 500 when computing the price or the quotes
    raises, and 200 otherwise, with [spread = ask - bid] and
    [spread_bps = (ask - bid) / fair * 10000] from the same quotes a cycle
    would place.  The division by the fair price never raises: a zero
    price has been answered with 503 before. *)
Theorem quotes_api_responses (now1 now2 start_time : float) (mm : MarketMaker) :
  _handle_quotes_api now1 now2 start_time mm
  = match pricing.get_fair_price (market_state mm) with
    | Raise _ => error_response "Failed to get quotes" 500
    | Ok None => error_response "No fair price available" 503
    | Ok (Some fair_price) =>
        if float_truthy fair_price then
          match pricing.calculate_bid_ask_prices fair_price with
          | Raise _ => error_response "Failed to get quotes" 500
          | Ok (bid_price, ask_price) =>
              json_response
                {| q_timestamp := now1;
                   q_fair_price := fair_price;
                   q_bid_price := bid_price;
                   q_ask_price := ask_price;
                   q_spread := (ask_price - bid_price)%float;
                   q_spread_bps := ((ask_price - bid_price) / fair_price * 10000)%float;
                   q_uptime := (now2 - start_time)%float;
                   q_current_orders := current_orders mm |}
                200
          end
        else error_response "No fair price available" 503
    end.
Proof.
  unfold _handle_quotes_api.
  destruct (pricing.get_fair_price (market_state mm)) as [[fair|]|e]; try reflexivity.
  cbn -[pricing.calculate_bid_ask_prices truediv float_truthy].
  unfold float_truthy.
  destruct (fair =? 0)%float eqn:Hzero; [reflexivity|].
  cbn -[pricing.calculate_bid_ask_prices truediv].
  destruct (pricing.calculate_bid_ask_prices fair) as [[bp ap]|e]; [|reflexivity].
  cbn -[truediv]. unfold truediv. rewrite Hzero. reflexivity.
Qed.

End quotes_endpoint.
